(** * The plugin CI pipeline of grafana-toolkit

    A shallow embedding of
    [packages/grafana-toolkit/src/cli/tasks/plugin.ci.ts]: the four task
    runners [buildPluginRunner], [packagePluginRunner], [testPluginRunner]
    and [pluginReportRunner].

    The runners are [async] functions full of side effects on the local
    file system and on the remote object store.  Each one is embedded as a
    computation in a small state-and-exception monad over a "world" that
    holds exactly the locations the runner touches together with a
    chronological trace of the externally visible operations.  A thrown
    JavaScript exception (a rejected promise) is the outcome [Throws]; the
    world reached so far is kept, as on the real machine.

    Helpers that live in other files of the toolkit ([S3Client],
    [getPluginJson], [getJobFolder], ...), npm packages and command line
    tools ([cp], [zip], [rimraf], ...) are not part of the embedded file.
    What they return is supplied by a record of collaborators, one field
    per call site family, so every theorem holds whatever they do. *)

From stdpp Require Import gmap strings list fin_maps pretty.

Open Scope string_scope.
Open Scope list_scope.
Open Scope Z_scope.

(** ** Outcomes and the runner monad *)

(** The result of evaluating a JavaScript expression or awaiting a promise:
    a value, or a thrown error (modelled by its message). *)
Inductive outcome (A : Type) : Type :=
| Returns (a : A)
| Throws (e : string).
Arguments Returns {A} a.
Arguments Throws {A} e.

Definition returned {A} (o : outcome A) : bool :=
  match o with Returns _ => true | Throws _ => false end.

(** A runner over worlds [W]: it ends in an outcome and a new world. *)
Definition M (W A : Type) : Type := W → outcome A * W.

#[global] Instance M_ret {W} : MRet (M W) := λ A a w, (Returns a, w).

#[global] Instance M_bind {W} : MBind (M W) := λ A B k m w,
  match m w with
  | (Returns a, w') => k a w'
  | (Throws e, w') => (Throws e, w')
  end.

(** [throw new Error(msg)] *)
Definition throw {W A} (msg : string) : M W A := λ w, (Throws msg, w).

(** [try { body } catch (err) { handler(err) }] *)
Definition try_catch {W A} (body : M W A) (handler : string → M W A) : M W A :=
  λ w, match body w with
       | (Returns a, w') => (Returns a, w')
       | (Throws e, w') => handler e w'
       end.

(** A call whose result is decided by a collaborator and which leaves the
    modelled world alone. *)
Definition call {W A} (o : outcome A) : M W A := λ w, (o, w).

Definition modify {W} (f : W → W) : M W unit := λ w, (Returns tt, f w).
Definition gets {W A} (f : W → A) : M W A := λ w, (Returns (f w), w).

(** [for (const x of xs) { body(x) }] *)
Fixpoint for_of {W A} (xs : list A) (body : A → M W unit) : M W unit :=
  match xs with
  | [] => mret tt
  | x :: rest => body x ;; for_of rest body
  end.

(** ** JavaScript values used by the runners *)

(** The numbers the runners handle come from [parseInt] over environment
    variables: an integer, [NaN], or no value at all ([undefined]). *)
Inductive jsnumber : Type :=
| JsUndefined
| JsNaN
| JsInt (z : Z).

(** Truthiness, as tested by [if (pr)] and [pr ? a : b]. *)
Definition truthy (n : jsnumber) : bool :=
  match n with
  | JsInt z => negb (z =? 0)
  | _ => false
  end.

(** What a template literal [`${n}`] (or a property key) makes of it. *)
Definition js_string (n : jsnumber) : string :=
  match n with
  | JsUndefined => "undefined"
  | JsNaN => "NaN"
  | JsInt z => pretty z
  end.

(** [s || fallback] for an optional string: [undefined] and the empty
    string are both falsy. *)
Definition or_else (s : option string) (fallback : string) : string :=
  match s with
  | None => fallback
  | Some "" => fallback
  | Some v => v
  end.

(** [o[key] = v] on a plain object [o] (an object literal, or what
    [JSON.parse] returned), seen through its own properties, which are
    what [JSON.stringify] writes.  Every key but one gets an own property.
    [__proto__] is an accessor inherited from [Object.prototype]: unless
    [o] has an own property of that name (as [JSON.parse] makes one from a
    JSON member called [__proto__]), the assignment runs the setter, which
    changes the prototype of [o] and adds no property. *)
Definition js_set {A} (key : string) (v : A) (o : gmap string A) : gmap string A :=
  if decide (key = "__proto__")
  then match o !! key with
       | Some _ => <[key := v]> o
       | None => o
       end
  else <[key := v]> o.

(** [path.resolve(dir, name)] for an absolute [dir] and a plain relative
    [name]. *)
Definition path_resolve (dir name : string) : string := dir +:+ "/" +:+ name.

(** JSON payloads the runners pass along without looking inside, kept as
    their JSON text. *)
Definition json : Type := string.

(** ** Data model (the interfaces of [plugins/types] and [@grafana/data]) *)

Module PluginBuildInfo.
Record t : Type := mk {
  time : option Z;
  repo : option string;
  branch : option string;
  hash : option string;
  number : jsnumber;
  pr : jsnumber;
}.
Definition set_number (n : jsnumber) (b : t) : t :=
  mk (time b) (repo b) (branch b) (hash b) n (pr b).
Definition set_pr (n : jsnumber) (b : t) : t :=
  mk (time b) (repo b) (branch b) (hash b) (number b) n.
End PluginBuildInfo.

Module PluginMetaInfo.
Record t : Type := mk {
  version : option string;
  build : option PluginBuildInfo.t;
  logos : json;
}.
Definition set_build (b : option PluginBuildInfo.t) (i : t) : t :=
  mk (version i) b (logos i).
End PluginMetaInfo.

Module PluginMeta.
Record t : Type := mk {
  id : string;
  name : string;
  type : string;
  info : PluginMetaInfo.t;
}.
Definition set_info (i : PluginMetaInfo.t) (m : t) : t :=
  mk (id m) (name m) (type m) i.
End PluginMeta.

Module PluginBuildReport.
Record t : Type := mk {
  plugin : PluginMeta.t;
  packages : json;
  workflow : json;
  coverage : json;
  tests : json;
  artifactsBaseURL : string;
  grafanaVersion : json;
  pullRequest : jsnumber;
}.
Definition set_plugin (p : PluginMeta.t) (r : t) : t :=
  mk p (packages r) (workflow r) (coverage r) (tests r)
     (artifactsBaseURL r) (grafanaVersion r) (pullRequest r).
End PluginBuildReport.

Module PluginDevInfo.
Record t : Type := mk {
  pluginId : string;
  name : string;
  logo : option string;
  build : PluginBuildInfo.t;
  version : string;
}.
End PluginDevInfo.

(** The per-plugin index: branch name ↦ latest record, PR number ↦ latest
    record.  Keys of a JavaScript object are strings. *)
Module PluginDevSummary.
Record t : Type := mk {
  branch : gmap string PluginDevInfo.t;
  pr : gmap string PluginDevInfo.t;
}.
Definition empty : t := mk ∅ ∅.
End PluginDevSummary.


(** * The Build stage: [buildPluginRunner] *)

Module Build.

(** A directory tree: the content of the files below a folder, by
    relative path. *)
Abbreviation tree := (gmap string string).

(** The folders of a directory, by name. *)
Abbreviation folders := (gmap string tree).

Inductive event : Type :=
| Started (command : string)
| Completed (command : string)
| Renamed (from to : string)
| WriteJobStats (workDir : string).

(** A child process that was started and is still running: what it will
    have done to the working directory once it is over. *)
Record process : Type := {
  command : string;
  effect : folders → folders;
}.

Record world : Type := {
  (** does [<cwd>/Makefile] exist? *)
  makefile : bool;
  (** the folders of the shared working directory *)
  project : folders;
  (** the folders of the job folder; [None] when it does not exist *)
  workDir : option folders;
  (** child processes nobody waits for *)
  running : list process;
  trace : list event;
}.

Definition set_project (p : folders) (w : world) : world :=
  {| makefile := makefile w; project := p; workDir := workDir w;
     running := running w; trace := trace w |}.
Definition set_workDir (d : option folders) (w : world) : world :=
  {| makefile := makefile w; project := project w; workDir := d;
     running := running w; trace := trace w |}.
Definition set_running (ps : list process) (w : world) : world :=
  {| makefile := makefile w; project := project w; workDir := workDir w;
     running := ps; trace := trace w |}.
Definition emit (e : event) : M world unit :=
  modify (λ w, {| makefile := makefile w; project := project w;
                  workDir := workDir w; running := running w;
                  trace := trace w ++ [e] |}).

Record collaborators : Type := {
  cwd : string;
  getJobFolder : string;
  (** [execa('rimraf', [workDir])] and [fs.mkdirSync(workDir)] *)
  rimraf : string → outcome unit;
  mkdirSync : string → outcome unit;
  (** what [make backend-plugin-ci] does to the working directory *)
  make : folders → folders;
  (** [pluginBuildRunner({ coverage: true })]: what it leaves in the
      working directory and how it ends *)
  pluginBuildRunner : folders → outcome unit * folders;
}.

(** [await execa('rimraf', [workDir]); fs.mkdirSync(workDir)] *)
Definition recreate_workDir (c : collaborators) (dir : string) : M world unit :=
  call (rimraf c dir) ;;
  modify (set_workDir None) ;;
  call (mkdirSync c dir) ;;
  modify (set_workDir (Some ∅)).

(** [execa('make', ['backend-plugin-ci']).stdout!.pipe(process.stdout)]:
    the child process is started; the promise [execa] returns is
    dropped, so the runner goes on while [make] runs. *)
Definition start_make (c : collaborators) : M world unit :=
  emit (Started "make backend-plugin-ci") ;;
  modify (λ w, set_running
                 (running w ++ [{| command := "make backend-plugin-ci";
                                   effect := make c |}]) w).

(** [await pluginBuildRunner({ coverage: true })] *)
Definition await_pluginBuildRunner (c : collaborators) : M world unit :=
  emit (Started "pluginBuildRunner") ;;
  p ← gets project;
  modify (set_project (pluginBuildRunner c p).2) ;;
  emit (Completed "pluginBuildRunner") ;;
  call (pluginBuildRunner c p).1.

(** [fs.renameSync(dir, path.resolve(workDir, name))] *)
Definition renameSync (c : collaborators) (name : string) (t : tree) : M world unit := λ w,
  match workDir w with
  | Some d =>
      (emit (Renamed (path_resolve (cwd c) name)
               (path_resolve (getJobFolder c) name)) ;;
       modify (λ w, set_workDir (Some (<[name := t]> d))
                      (set_project (delete name (project w)) w))) w
  | None => (Throws "ENOENT: no such file or directory, rename", w)
  end.

(** The body of the loop over ['dist', 'coverage'] (lines 76-79). *)
Definition move_folder (c : collaborators) (name : string) : M world unit :=
  dir ← gets (λ w, project w !! name);
  match dir with
  | Some t => renameSync c name t
  | None => mret tt
  end.

Definition buildPluginRunner (c : collaborators) (backend : bool) : M world unit :=
  let workDir := getJobFolder c in
  recreate_workDir c workDir ;;
  (if backend
   then
     let makefile_path := path_resolve (cwd c) "Makefile" in
     present ← gets makefile;
     if present : bool
     then (* Run plugin-ci task *) start_make c
     else throw ("Missing: " +:+ makefile_path +:+
                 ". A Makefile is required for backend plugins.")
   else
     (* Do regular build process with coverage *)
     await_pluginBuildRunner c) ;;
  (* Move local folders to the scoped job folder *)
  for_of ["dist"; "coverage"] (move_folder c) ;;
  emit (WriteJobStats workDir).

(** The child processes left running come to their end. *)
Definition settle (w : world) : world :=
  {| makefile := makefile w;
     project := foldl (λ p proc, effect proc p) (project w) (running w);
     workDir := workDir w;
     running := [];
     trace := trace w ++ (Completed ∘ command <$> running w) |}.

(** ** Vocabulary for the statements about the runner *)

(** The renames the loop makes in a working directory [p]. *)
Definition moves (c : collaborators) (p : folders) : list event :=
  name ← ["dist"; "coverage"];
  match p !! name with
  | Some _ => [Renamed (path_resolve (cwd c) name)
                 (path_resolve (getJobFolder c) name)]
  | None => []
  end.

Definition is_renamed (e : event) : bool :=
  match e with Renamed _ _ => true | _ => false end.

End Build.

(** Concrete build runs used to exercise the statements. *)
Module BuildExample.
Import Build.

Definition bundle : tree := {[ "module.js" := "define(...)" ]}.
Definition lcov : tree := {[ "lcov.info" := "TN:" ]}.
Definition binary : tree := {[ "my-panel_linux_amd64" := "ELF" ]}.

(** A tool chain; [webpack_ok] tells whether the frontend build passes.
    Either way it writes [dist] before it ends. *)
Definition tools (webpack_ok : bool) : collaborators :=
  {| cwd := "/home/circleci/plugin";
     getJobFolder := "/home/circleci/plugin/ci/jobs/build_plugin";
     rimraf := λ _, Returns tt;
     mkdirSync := λ _, Returns tt;
     make := λ p, <["dist" := binary]> p;
     pluginBuildRunner := λ p,
       if webpack_ok
       then (Returns tt, <["coverage" := lcov]> (<["dist" := bundle]> p))
       else (Throws "Build failed", <["dist" := bundle]> p) |}.

(** A freshly checked out project with a Makefile. *)
Definition checkout : world :=
  {| makefile := true; project := ∅; workDir := None; running := [];
     trace := [] |}.

End BuildExample.

(** * The Package stage: [packagePluginRunner] *)

Module Package.

(** ** The file system, as far as the stage sees it *)

(** A directory tree: the content of the files below a folder, by
    relative path. *)
Abbreviation tree := (gmap string string).

Record archive : Type := {
  size : Z;
  entries : tree;
}.

Inductive event : Type :=
| WriteFile (path : string) (content : string)
| WriteJobStats (workDir : string).

(** The folders the stage reads and writes.  [None] is a folder that
    does not exist. *)
Record world : Type := {
  (** [<cwd>/dist] *)
  local_dist : option tree;
  (** [ci/jobs]: every job folder with its [dist] subfolder, in the
      order [readdirSync] lists them *)
  jobs : option (list (string * option tree));
  (** [ci/dist/<pluginId>], the canonical distribution tree *)
  dist : option tree;
  (** [ci/docs] *)
  docs : option tree;
  (** [ci/packages]: the archives by file name *)
  packages : gmap string archive;
  (** [ci/grafana-test-env/plugins/<pluginId>] *)
  sandbox : option tree;
  trace : list event;
}.

Definition set_dist (d : option tree) (w : world) : world :=
  {| local_dist := local_dist w; jobs := jobs w; dist := d; docs := docs w;
     packages := packages w; sandbox := sandbox w; trace := trace w |}.
Definition set_packages (p : gmap string archive) (w : world) : world :=
  {| local_dist := local_dist w; jobs := jobs w; dist := dist w; docs := docs w;
     packages := p; sandbox := sandbox w; trace := trace w |}.
Definition set_sandbox (s : option tree) (w : world) : world :=
  {| local_dist := local_dist w; jobs := jobs w; dist := dist w; docs := docs w;
     packages := packages w; sandbox := s; trace := trace w |}.
Definition emit (e : event) : M world unit :=
  modify (λ w, {| local_dist := local_dist w; jobs := jobs w; dist := dist w;
                  docs := docs w; packages := packages w; sandbox := sandbox w;
                  trace := trace w ++ [e] |}).

(** ** Collaborators *)

Record collaborators : Type := {
  cwd : string;
  getCiFolder : string;
  getJobFolder : string;
  getPluginId : outcome string;
  (** [getPluginJson(path)], given what the file system holds at [path]
      ([None]: no such file) *)
  getPluginJson : string → option string → outcome PluginMeta.t;
  (** Does this platform's [cp -n] exit with an error when it skips a
      file that is already there (BSD, coreutils 9.2) or not (older
      coreutils)? *)
  cp_reports_conflicts : bool;
  getPluginBuildInfo : outcome PluginBuildInfo.t;
  (** [JSON.stringify(pluginInfo, null, 2)] and the like *)
  stringify : PluginMeta.t → string;
  (** [zip -r zipFile .] run inside a folder *)
  zip : tree → outcome archive;
  (** [unzip zipFile -d dir] *)
  unzip : archive → outcome tree;
  getPackageDetails : string → string → outcome json;
  stringify_info : json → option json → string;
}.

(** ** File system operations *)

(** [await execa('rimraf', [packagesDir, distDir, grafanaEnvDir])]
    followed by the three [mkdirSync]: [ci/packages] and
    [ci/grafana-test-env] are empty, [ci/dist] is empty too, so the
    canonical tree [ci/dist/<pluginId>] does not exist. *)
Definition recreate_folders : M world unit :=
  modify (λ w, set_sandbox None (set_packages ∅ (set_dist None w))).

(** [path] lies inside the folder [dir]: it reads [dir/...]. *)
Definition is_under (dir path : string) : bool :=
  String.prefix (dir +:+ "/") path.

(** The tree has files inside the folder [p], so [p] is a folder of
    it. *)
Definition has_dir (t : tree) (p : string) : Prop :=
  set_Exists (λ q, is_under p q = true) (dom t).

(** The tree has a file where [p] needs a folder. *)
Definition in_file (t : tree) (p : string) : Prop :=
  set_Exists (λ q, is_under q p = true) (dom t).

(** What [cp -n] does with the file [p] of the source when the
    destination has something in its way.  If [p] exists in the
    destination, as a file or as a folder, the file is skipped: that is
    what [-n] asks for.  If a folder on the way to [p] is a file in the
    destination, [cp] cannot make the folder and refuses with "cannot
    overwrite non-directory". *)
Definition skips (dst : tree) (p : string) : Prop := p ∈ dom dst ∨ has_dir dst p.
Definition refuses (dst : tree) (p : string) : Prop := in_file dst p.

(** Some file of [src] cannot be copied into [dst]. *)
Definition clashes (dst src : tree) : Prop :=
  set_Exists (λ p, skips dst p ∨ refuses dst p) (dom src).

(** [await execa('cp', ['-rn', src + '/.', distDir])].  Every file of
    [src] that nothing stands in the way of is copied (the tree is
    created on the way if need be); the others are left out, and what
    the tree holds is left alone.  [cp] goes on after a file it could
    not copy and exits with an error at the end: always when it refused
    one, and on the platforms that report it when it skipped one; then
    [execa] rejects. *)
Definition cp_rn (c : collaborators) (src : tree) : M world unit := λ w,
  let dst := default ∅ (dist w) in
  let copied := filter (λ kv, ¬ skips dst kv.1 ∧ ¬ refuses dst kv.1) src in
  let w' := set_dist (Some (dst ∪ copied)) w in
  if bool_decide (set_Exists (refuses dst) (dom src))
     || (cp_reports_conflicts c && bool_decide (set_Exists (skips dst) (dom src)))
  then (Throws "Command failed: cp -rn", w')
  else (Returns tt, w').

(** [fs.readdirSync(path.resolve(ciDir, 'jobs'))] *)
Definition readdirSync_jobs : M world (list (string * option tree)) := λ w,
  match jobs w with
  | Some js => (Returns js, w)
  | None => (Throws "ENOENT: no such file or directory, scandir", w)
  end.

(** [getPluginJson(pluginJsonFile)] on the manifest of the canonical
    tree. *)
Definition load_manifest (c : collaborators) (path : string) : M world PluginMeta.t :=
  d ← gets dist;
  call (getPluginJson c path (d ≫= (.!! "plugin.json"))).

(** [fs.writeFile(pluginJsonFile, JSON.stringify(pluginInfo, null, 2), cb)]:
    the stamped manifest replaces the one in the canonical tree.  Without
    that folder the write fails, which only its callback learns. *)
Definition write_manifest (c : collaborators) (path : string)
    (m : PluginMeta.t) : M world unit :=
  emit (WriteFile path (stringify c m)) ;;
  modify (λ w, set_dist ((<["plugin.json" := stringify c m]>) <$> dist w) w).

(** [process.chdir(dir)] into a folder that must exist. *)
Definition chdir {A} (dir : option A) (path : string) : M world A := λ w,
  match dir with
  | Some t => (Returns t, w)
  | None => (Throws ("ENOENT: no such file or directory, chdir " +:+ path), w)
  end.

(** [await execa('zip', ['-r', zipFile, '.'])] *)
Definition run_zip (c : collaborators) (zipName : string) (t : tree) : M world unit :=
  a ← call (zip c t);
  modify (λ w, set_packages (<[zipName := a]> (packages w)) w).

(** [fs.statSync(zipFile)] *)
Definition statSync (zipName zipFile : string) : M world archive := λ w,
  match packages w !! zipName with
  | Some a => (Returns a, w)
  | None => (Throws ("ENOENT: no such file or directory, stat " +:+ zipFile), w)
  end.

(** [await execa('unzip', [zipFile, '-d', p])] into the fresh sandbox
    folder. *)
Definition run_unzip (c : collaborators) (zipName zipFile : string) : M world unit :=
  a ← statSync zipName zipFile;
  extracted ← call (unzip c a);
  modify (set_sandbox (Some extracted)).

(** ** The runner *)

(** The line feed of ["\n"]. *)
Definition nl : string := String (Ascii.ascii_of_nat 10) "".

(** [pluginInfo.id + '-' + pluginInfo.info.version]: string
    concatenation prints a missing version as "undefined". *)
Definition zip_stem (pluginInfo : PluginMeta.t) : string :=
  PluginMeta.id pluginInfo +:+ "-" +:+
  match PluginMetaInfo.version (PluginMeta.info pluginInfo) with
  | Some v => v
  | None => "undefined"
  end.

(** The canonical tree's path once the plugin id is known (line 142). *)
Definition distDir (c : collaborators) (pluginId : string) : string :=
  path_resolve (getCiFolder c) ("dist/" +:+ pluginId).

(** The body of the loop over the job folders (lines 156-163). *)
Definition merge_job (c : collaborators) (j : string * option tree) : M world unit :=
  match j.2 with
  | Some contents =>
      try_catch (cp_rn c contents)
        (λ er, throw "Duplicate files found in dist folders")
  | None => mret tt
  end.

(** Lines 130-164: clear the output folders and build the canonical
    tree from the local [dist] folder and the [dist] folder of every
    job. *)
Definition build_dist_folder (c : collaborators) : M world string :=
  recreate_folders ;;
  pluginId ← call (getPluginId c);
  (* 1. Check for a local 'dist' folder *)
  d ← gets local_dist;
  match d with
  | Some src => cp_rn c src
  | None => mret tt
  end ;;
  (* 2. Look for any 'dist' folders under ci/job/XXX/dist *)
  dirs ← readdirSync_jobs;
  for_of dirs (merge_job c) ;;
  mret pluginId.

(** Lines 166-186: stamp the manifest, zip the tree and check the
    archive. *)
Definition build_zip (c : collaborators) (pluginId : string)
    : M world (PluginMeta.t * string) :=
  let distDir := distDir c pluginId in
  let packagesDir := path_resolve (getCiFolder c) "packages" in
  let pluginJsonFile := path_resolve distDir "plugin.json" in
  pluginInfo ← load_manifest c pluginJsonFile;
  build ← call (getPluginBuildInfo c);
  (* pluginInfo.info.build = build *)
  let pluginInfo :=
    PluginMeta.set_info
      (PluginMetaInfo.set_build (Some build) (PluginMeta.info pluginInfo))
      pluginInfo in
  write_manifest c pluginJsonFile pluginInfo ;;
  let zipName := zip_stem pluginInfo +:+ ".zip" in
  let zipFile := path_resolve packagesDir zipName in
  d ← gets dist;
  t ← chdir d distDir;
  run_zip c zipName t ;;
  zipStats ← statSync zipName zipFile;
  if size zipStats <? 100
  then throw ("Invalid zip file: " +:+ zipFile)
  else mret (pluginInfo, zipFile).

(** Lines 188-229: package details, the sandbox for the Test stage, the
    documentation archive, [info.json] and [custom.ini]. *)
Definition stage_environment (c : collaborators) (pluginId : string)
    (pluginInfo : PluginMeta.t) (zipFile : string) : M world unit :=
  let ciDir := getCiFolder c in
  let distDir := distDir c pluginId in
  let packagesDir := path_resolve ciDir "packages" in
  let docsDir := path_resolve ciDir "docs" in
  let grafanaEnvDir := path_resolve ciDir "grafana-test-env" in
  plugin ← call (getPackageDetails c zipFile distDir);
  let zipName := zip_stem pluginInfo +:+ ".zip" in
  run_unzip c zipName zipFile ;;
  (* If docs exist, zip them into packages *)
  d ← gets docs;
  info_docs ←
    match d with
    | Some t =>
        let zipName := zip_stem pluginInfo +:+ "-docs.zip" in
        let zipFile := path_resolve packagesDir zipName in
        run_zip c zipName t ;;
        details ← call (getPackageDetails c zipFile docsDir);
        mret (Some details)
    | None => mret None
    end;
  emit (WriteFile (path_resolve packagesDir "info.json")
          (stringify_info c plugin info_docs)) ;;
  (* Write the custom settings *)
  emit (WriteFile (path_resolve grafanaEnvDir "custom.ini")
          ("# Autogenerated by @grafana/toolkit " +:+ nl +:+ "[paths] " +:+ nl +:+
           "plugins = " +:+ path_resolve grafanaEnvDir "plugins" +:+ nl +:+ nl)) ;;
  emit (WriteJobStats (getJobFolder c)).

Definition packagePluginRunner (c : collaborators) : M world unit :=
  pluginId ← build_dist_folder c;
  '(pluginInfo, zipFile) ← build_zip c pluginId;
  stage_environment c pluginId pluginInfo zipFile.

(** ** Vocabulary for the statements about the runner *)

(** The world after lines 136-143. *)
Definition recreated (w : world) : world :=
  set_sandbox None (set_packages ∅ (set_dist None w)).

(** The [dist] folders that flow into the canonical tree, in merge
    order: the local one, then the one of each job. *)
Definition contributions (w : world) (js : list (string * option tree)) : list tree :=
  option_list (local_dist w) ++ omap snd js.

(** No two contributions hold a file under the same relative path. *)
Definition overlap_free (cs : list tree) : Prop :=
  ∀ i j t1 t2, (i < j)%nat → cs !! i = Some t1 → cs !! j = Some t2 →
               dom t1 ## dom t2.


(** The files of the canonical tree (none when it does not exist). *)
Definition canonical (w : world) : tree := default ∅ (dist w).

(** The canonical tree once [cs] were copied over [d], one after the
    other. *)
Definition merge_into (d : option tree) (cs : list tree) : option tree :=
  foldl (λ acc t, Some (default ∅ acc ∪ t)) d cs.

(** No contribution has a file that cannot be copied onto an earlier
    one: none at a path where an earlier one has a file or a folder, and
    none inside what is a file of an earlier one. *)
Definition clash_free (cs : list tree) : Prop :=
  ∀ i j t1 t2, (i < j)%nat → cs !! i = Some t1 → cs !! j = Some t2 →
               ¬ clashes t1 t2.



(** No copy of [cs] over [acc], one after the other, meets anything in
    its way. *)
Fixpoint clean (acc : tree) (cs : list tree) : Prop :=
  match cs with
  | [] => True
  | t :: rest => ¬ clashes acc t ∧ clean (acc ∪ t) rest
  end.

(** The manifest with its build provenance stamped (line 169). *)
Definition stamp (b : PluginBuildInfo.t) (m : PluginMeta.t) : PluginMeta.t :=
  PluginMeta.set_info (PluginMetaInfo.set_build (Some b) (PluginMeta.info m)) m.

Definition zipFile (c : collaborators) (m : PluginMeta.t) : string :=
  path_resolve (path_resolve (getCiFolder c) "packages") (zip_stem m +:+ ".zip").

(** The world after the archive step (lines 166-181) for a tree [t]
    whose manifest reads [m] after stamping and zips to [a]. *)
Definition zipped (c : collaborators) (pluginId : string) (m : PluginMeta.t)
    (t : tree) (a : archive) (w : world) : world :=
  {| local_dist := local_dist w; jobs := jobs w;
     dist := Some (<["plugin.json" := stringify c m]> t); docs := docs w;
     packages := <[zip_stem m +:+ ".zip" := a]> (packages w);
     sandbox := sandbox w;
     trace := trace w ++
       [WriteFile (path_resolve (distDir c pluginId) "plugin.json")
          (stringify c m)] |}.

End Package.

(** Concrete package runs used to exercise the statements. *)
Module PackageExample.
Import Package.

Definition manifest : PluginMeta.t :=
  PluginMeta.mk "my-panel" "My Panel" "panel"
    (PluginMetaInfo.mk (Some "1.0.0") None "{}").

Definition build_info : PluginBuildInfo.t :=
  PluginBuildInfo.mk (Some 1573000000000) (Some "git@github.com:acme/my-panel")
    (Some "master") (Some "def456") JsUndefined JsUndefined.

(** A tool chain whose [zip] makes archives of [zip_size] bytes. *)
Definition tools (zip_size : Z) : collaborators :=
  {| cwd := "/home/circleci/plugin";
     getCiFolder := "/home/circleci/plugin/ci";
     getJobFolder := "/home/circleci/plugin/ci/jobs/package";
     getPluginId := Returns "my-panel";
     getPluginJson := λ path content,
       match content with
       | Some _ => Returns manifest
       | None => Throws ("Unable to find: " +:+ path)
       end;
     cp_reports_conflicts := true;
     getPluginBuildInfo := Returns build_info;
     stringify := λ m, "{ id: " +:+ PluginMeta.id m +:+ " }";
     zip := λ t, Returns {| size := zip_size; entries := t |};
     unzip := λ a, Returns (entries a);
     getPackageDetails := λ _ _, Returns "{}";
     stringify_info := λ plugin docs, plugin |}.


Definition frontend : tree :=
  {[ "plugin.json" := "{ id: my-panel }"; "module.js" := "define(...)" ]}.
Definition backend : tree :=
  {[ "my-panel_linux_amd64" := "ELF" ]}.

Definition world_of (local : option tree) (js : list (string * option tree)) : world :=
  {| local_dist := local; jobs := Some js; dist := None; docs := None;
     packages := ∅; sandbox := None; trace := [] |}.

(** Two build jobs with disjoint output, and a package job. *)
Definition two_builds : world :=
  world_of None [("build_backend", Some backend); ("build_frontend", Some frontend);
                 ("package", None)].



(** No [dist] folder anywhere. *)
Definition nothing_built : world :=
  world_of None [("build_frontend", None); ("package", None)].

End PackageExample.

(** * The Test stage: [testPluginRunner] *)

Module Test.

Abbreviation tree := (gmap string string).

Module TestResultsInfo.
Record t : Type := mk {
  job : string;
  grafana : option json;
  error : option string;
  passed : Z;
  failed : Z;
  screenshots : list string;
}.
Definition set_grafana (g : option json) (r : t) : t :=
  mk (job r) g (error r) (passed r) (failed r) (screenshots r).
Definition set_error (e : option string) (r : t) : t :=
  mk (job r) (grafana r) e (passed r) (failed r) (screenshots r).
Definition set_screenshots (s : list string) (r : t) : t :=
  mk (job r) (grafana r) (error r) (passed r) (failed r) s.
End TestResultsInfo.

(** What [getEndToEndSettings()] returns, as far as the runner reads
    it. *)
Record settings : Type := {
  plugin : PluginMeta.t;
  outputFolder : string;
}.

Inductive event : Type :=
| WriteFile (path : string) (results : TestResultsInfo.t)
| WriteJobStats (workDir : string).

Record world : Type := {
  (** the folder [settings.outputFolder] *)
  output : option tree;
  (** [<cwd>/e2e-temp] *)
  tempDir : option tree;
  (** the job folder *)
  workDir : tree;
  (** the object [results], which the test runner fills in place *)
  results : TestResultsInfo.t;
  trace : list event;
}.

Definition set_output (o : option tree) (w : world) : world :=
  {| output := o; tempDir := tempDir w; workDir := workDir w;
     results := results w; trace := trace w |}.
Definition set_tempDir (d : option tree) (w : world) : world :=
  {| output := output w; tempDir := d; workDir := workDir w;
     results := results w; trace := trace w |}.
Definition set_workDir (d : tree) (w : world) : world :=
  {| output := output w; tempDir := tempDir w; workDir := d;
     results := results w; trace := trace w |}.
Definition set_results (r : TestResultsInfo.t) (w : world) : world :=
  {| output := output w; tempDir := tempDir w; workDir := workDir w;
     results := r; trace := trace w |}.
Definition emit (e : event) : M world unit :=
  modify (λ w, {| output := output w; tempDir := tempDir w;
                  workDir := workDir w; results := results w;
                  trace := trace w ++ [e] |}).

(** The collaborators, one field per call site: how the call ends. *)
Record collaborators : Type := {
  cwd : string;
  job : string;
  getJobFolder : string;
  getEndToEndSettings : outcome settings;
  (** lines 255-260 *)
  rimraf_outputFolder : outcome unit;
  mkdir_outputFolder : outcome unit;
  rimraf_tempDir : outcome unit;
  mkdir_tempDir : outcome unit;
  (** lines 263-290 *)
  require_axios : outcome unit;
  (** [axios.get('api/frontend/settings', args)], down to
      [.data.buildInfo] *)
  get_frontend_settings : outcome json;
  (** [axios.get(`api/plugins/${id}/settings`, args)], down to [.data] *)
  get_plugin_settings : string → outcome PluginMeta.t;
  mkdir_tempDir_again : outcome unit;
  cp_common_tests : outcome unit;
  (** [runEndToEndTests(outputFolder, results)]: how it ends, what it
      made of [results] and what it left in the output folder *)
  runEndToEndTests : TestResultsInfo.t → tree →
                     outcome unit * TestResultsInfo.t * tree;
  (** lines 295-299 *)
  rimraf_tempDir_after : outcome unit;
  cp_outputFolder : outcome unit;
  findImagesInFolder : tree → outcome (list string);
}.

(** [await execa('rimraf', [dir]); fs.mkdirSync(dir)] on the output
    folder and on the scratch folder. *)
Definition recreate_outputFolder (c : collaborators) : M world unit :=
  call (rimraf_outputFolder c) ;;
  modify (set_output None) ;;
  call (mkdir_outputFolder c) ;;
  modify (set_output (Some ∅)).

Definition recreate_tempDir (c : collaborators) : M world unit :=
  call (rimraf_tempDir c) ;;
  modify (set_tempDir None) ;;
  call (mkdir_tempDir c) ;;
  modify (set_tempDir (Some ∅)).

(** Lines 272-279: the deployed plugin must be the packaged one. *)
Definition check_version (st : settings) (loadedMeta : PluginMeta.t) : M world unit :=
  match PluginMetaInfo.build (PluginMeta.info loadedMeta) with
  | Some loaded =>
      match PluginMetaInfo.build (PluginMeta.info (plugin st)) with
      | Some current =>
          let currentHash := PluginBuildInfo.hash current in
          if decide (PluginBuildInfo.hash loaded = currentHash)
          then mret tt
          else throw "Wrong plugin version"
      | None => throw "TypeError: Cannot read property 'hash' of undefined"
      end
  | None => mret tt
  end.

(** [if (!fs.existsSync('e2e-temp')) { fs.mkdirSync(tempDir); }] *)
Definition ensure_tempDir (c : collaborators) : M world unit :=
  temp ← gets tempDir;
  match temp with
  | None => call (mkdir_tempDir_again c) ;; modify (set_tempDir (Some ∅))
  | Some _ => mret tt
  end.

(** [await execa('cp', [commonPluginTests.ts, tempDir/common.test.ts])] *)
Definition copy_common_tests (c : collaborators) : M world unit :=
  call (cp_common_tests c) ;;
  modify (λ w, set_tempDir
                 (Some (<["common.test.ts" := "commonPluginTests.ts"]>
                          (default ∅ (tempDir w)))) w).

(** [await runEndToEndTests(settings.outputFolder, results)] *)
Definition run_tests (c : collaborators) : M world unit := λ w,
  let '(o, r, files) := runEndToEndTests c (results w) (default ∅ (output w)) in
  (o, set_output (Some files) (set_results r w)).

(** The body of the [try] block (lines 263-290). *)
Definition guarded (c : collaborators) (st : settings) : M world unit :=
  call (require_axios c) ;;
  buildInfo ← call (get_frontend_settings c);
  modify (λ w, set_results (TestResultsInfo.set_grafana (Some buildInfo) (results w)) w) ;;
  loadedMeta ← call (get_plugin_settings c (PluginMeta.id (plugin st)));
  check_version st loadedMeta ;;
  ensure_tempDir c ;;
  copy_common_tests c ;;
  run_tests c.

(** [catch (err) { results.error = err; }] *)
Definition store_error (err : string) : M world unit :=
  modify (λ w, set_results (TestResultsInfo.set_error (Some err) (results w)) w).

(** Lines 295-306: remove the scratch folder, copy the runner's output
    to the job folder, list the screenshots and write the results. *)
Definition collect (c : collaborators) : M world unit :=
  call (rimraf_tempDir_after c) ;;
  modify (set_tempDir None) ;;
  (* Now copy everything to work folder *)
  call (cp_outputFolder c) ;;
  modify (λ w, set_workDir (default ∅ (output w) ∪ workDir w) w) ;;
  folder ← gets workDir;
  images ← call (findImagesInFolder c folder);
  modify (λ w, set_results (TestResultsInfo.set_screenshots images (results w)) w) ;;
  r ← gets results;
  emit (WriteFile (path_resolve (getJobFolder c) "results.json") r).

Definition testPluginRunner (c : collaborators) (full : bool) : M world unit :=
  let workDir_path := getJobFolder c in
  modify (set_results (TestResultsInfo.mk (job c) None None 0 0 [])) ;;
  st ← call (getEndToEndSettings c);
  recreate_outputFolder c ;;
  recreate_tempDir c ;;
  try_catch (guarded c st) store_error ;;
  collect c ;;
  emit (WriteJobStats workDir_path).

(** ** Vocabulary for the statements about the runner *)

(** The world when the [try] block is entered. *)
Definition prepared (c : collaborators) (w : world) : world :=
  set_tempDir (Some ∅) (set_output (Some ∅)
    (set_results (TestResultsInfo.mk (job c) None None 0 0 []) w)).

(** The world when the [try] block is left, whichever way. *)
Definition tested (c : collaborators) (st : settings) (w : world) : world :=
  (guarded c st (prepared c w)).2.

(** The error the [try] block ends with, if any. *)
Definition caught (c : collaborators) (st : settings) (w : world) : option string :=
  match (guarded c st (prepared c w)).1 with
  | Returns _ => None
  | Throws e => Some e
  end.

(** The object [results] after the [try] statement. *)
Definition results_after_try (c : collaborators) (st : settings) (w : world)
    : TestResultsInfo.t :=
  match caught c st w with
  | None => results (tested c st w)
  | Some e => TestResultsInfo.set_error (Some e) (results (tested c st w))
  end.

(** The job folder once the runner's output was copied into it. *)
Definition copied (c : collaborators) (st : settings) (w : world) : tree :=
  default ∅ (output (tested c st w)) ∪ workDir w.

(** The world after the [try] statement. *)
Definition after_try (c : collaborators) (st : settings) (w : world) : world :=
  set_results (results_after_try c st w) (tested c st w).

(** The world the stage returns with, given the screenshots found. *)
Definition finished (c : collaborators) (st : settings) (w : world)
    (images : list string) : world :=
  let r := TestResultsInfo.set_screenshots images (results_after_try c st w) in
  {| output := output (tested c st w); tempDir := None;
     workDir := copied c st w; results := r;
     trace := trace w ++
       [WriteFile (path_resolve (getJobFolder c) "results.json") r;
        WriteJobStats (getJobFolder c)] |}.

(** A computation that leaves the job folder and the trace alone. *)
Definition keeps {A} (m : M world A) : Prop :=
  ∀ w, workDir (m w).2 = workDir w ∧ trace (m w).2 = trace w.

(** Everything before the [try] block returns. *)
Definition set_up (c : collaborators) (st : settings) : Prop :=
  getEndToEndSettings c = Returns st ∧
  rimraf_outputFolder c = Returns tt ∧ mkdir_outputFolder c = Returns tt ∧
  rimraf_tempDir c = Returns tt ∧ mkdir_tempDir c = Returns tt.

End Test.

(** Concrete test runs used to exercise the statements. *)
Module TestExample.
Import Test.

Definition build_with (hash : string) : PluginBuildInfo.t :=
  PluginBuildInfo.mk (Some 1573000000000) None (Some "master") (Some hash)
    JsUndefined JsUndefined.

Definition manifest (hash : string) : PluginMeta.t :=
  PluginMeta.mk "my-panel" "My Panel" "panel"
    (PluginMetaInfo.mk (Some "1.0.0") (Some (build_with hash)) "{}").

(** An instance that runs the build [deployed] of the plugin while the
    packaged artifact is build "def456"; [copy] is how the final
    [cp -rv] ends. *)
Definition lab (deployed : string) (copy : outcome unit) : collaborators :=
  {| cwd := "/home/circleci/plugin";
     job := "test_plugin";
     getJobFolder := "/home/circleci/plugin/ci/jobs/test_plugin";
     getEndToEndSettings :=
       Returns {| plugin := manifest "def456";
                  outputFolder := "/home/circleci/plugin/e2e-results" |};
     rimraf_outputFolder := Returns tt;
     mkdir_outputFolder := Returns tt;
     rimraf_tempDir := Returns tt;
     mkdir_tempDir := Returns tt;
     require_axios := Returns tt;
     get_frontend_settings := Returns "{ version: 6.5.0 }";
     get_plugin_settings := λ _, Returns (manifest deployed);
     mkdir_tempDir_again := Returns tt;
     cp_common_tests := Returns tt;
     runEndToEndTests := λ r files,
       (Returns tt,
        TestResultsInfo.mk (TestResultsInfo.job r) (TestResultsInfo.grafana r)
          (TestResultsInfo.error r) 3 0 (TestResultsInfo.screenshots r),
        <["home.png" := "PNG"]> files);
     rimraf_tempDir_after := Returns tt;
     cp_outputFolder := copy;
     findImagesInFolder := λ t, Returns (elements (dom t)) |}.

Definition start : world :=
  {| output := None; tempDir := None; workDir := ∅;
     results := TestResultsInfo.mk "" None None 0 0 []; trace := [] |}.

End TestExample.
(** * The Report stage: [pluginReportRunner] *)

Module Report.

(** ** The remote store *)

(** Documents the stage serialises with [JSON.stringify]. *)
Inductive document : Type :=
| DReport (r : PluginBuildReport.t)
| DHistory (h : json)
| DSummary (s : PluginDevSummary.t)
| DIndex (d : gmap string PluginDevInfo.t)
| DBlob (content : string).

Record s3object : Type := {
  body : document;
  tagging : option string;
}.

Inductive event : Type :=
| WriteFile (file : string) (doc : document)
| NewS3Client
| S3Exists (key : string)
| S3WriteJSON (key : string) (doc : document) (tags : option string)
| S3ReadJSON (key : string)
| S3UploadLogo (remote_prefix : string)
| S3UploadPackages (remote_prefix : string)
| S3UploadTestFiles (remote_prefix : string).

(** Is the event an operation on the remote store? *)
Definition is_remote (e : event) : bool :=
  match e with
  | WriteFile _ _ | NewS3Client => false
  | _ => true
  end.

(** Does the event write the remote object at [key] through [writeJSON]? *)
Definition writes_key (key : string) (e : event) : bool :=
  match e with
  | S3WriteJSON k _ _ => bool_decide (k = key)
  | _ => false
  end.

(** The world of the stage: the bucket, the objects of uploads that were
    started but not awaited, and the trace. *)
Record world : Type := {
  remote : gmap string s3object;
  inflight : list (string * s3object);
  trace : list event;
}.

Definition emit (e : event) : M world unit :=
  modify (λ w, {| remote := remote w; inflight := inflight w;
                  trace := trace w ++ [e] |}).

Definition put_all (objs : list (string * s3object))
    (store : gmap string s3object) : gmap string s3object :=
  foldl (λ m kv, <[kv.1 := kv.2]> m) store objs.

(** The uploads left in flight land. *)
Definition settle (w : world) : world :=
  {| remote := put_all (inflight w) (remote w); inflight := [];
     trace := trace w |}.

(** Modelled from the spec: the [S3Client] class of [plugins/aws], which
    is not in the embedded file.  "Remote store collaborator: operations
    [exists(key) -> bool], [readJSON(key, default) -> T],
    [writeJSON(key, value, tags?)], [uploadLogo(...)],
    [uploadPackages(...)], [uploadTestFiles(...)].  Keys are hierarchical
    strings."  The bucket is a finite map from keys to objects; uploads
    only put objects. *)
Definition s3_exists (key : string) : M world bool :=
  emit (S3Exists key) ;;
  gets (λ w, match remote w !! key with Some _ => true | None => false end).

Definition s3_writeJSON (key : string) (doc : document)
    (tags : option string) : M world unit :=
  emit (S3WriteJSON key doc tags) ;;
  modify (λ w, {| remote := <[key := {| body := doc; tagging := tags |}]> (remote w);
                  inflight := inflight w; trace := trace w |}).

Definition s3_readJSON (key : string) (default : document) : M world document :=
  emit (S3ReadJSON key) ;;
  gets (λ w, match remote w !! key with Some o => body o | None => default end).

Definition blobs (files : list (string * string)) : list (string * s3object) :=
  (λ kv, (kv.1, {| body := DBlob kv.2; tagging := None |})) <$> files.

(** An awaited upload: its objects are in the bucket when it returns. *)
Definition s3_put (files : list (string * string)) : M world unit :=
  modify (λ w, {| remote := put_all (blobs files) (remote w);
                  inflight := inflight w; trace := trace w |}).

(** An upload that is started and not awaited. *)
Definition s3_start (files : list (string * string)) : M world unit :=
  modify (λ w, {| remote := remote w;
                  inflight := inflight w ++ blobs files; trace := trace w |}).

(** The TypeScript casts [readJSON<PluginHistory>], [<PluginDevSummary>]
    and [<DevSummary>].  A document of another shape under such a key is
    outside the declared type; the model stops there with a [TypeError],
    as the first property access on it would. *)
Definition as_history (d : document) : M world json :=
  match d with DHistory h => mret h | _ => throw "TypeError" end.
Definition as_summary (d : document) : M world PluginDevSummary.t :=
  match d with DSummary s => mret s | _ => throw "TypeError" end.
Definition as_index (d : document) : M world (gmap string PluginDevInfo.t) :=
  match d with DIndex i => mret i | _ => throw "TypeError" end.

(** ** Collaborators *)

Record collaborators : Type := {
  cwd : string;
  require_json : string → outcome json;
  getPluginJson : string → outcome PluginMeta.t;
  agregateWorkflowInfo : outcome json;
  agregateCoverageInfo : outcome json;
  agregateTestInfo : outcome json;
  getCircleDownloadBaseURL : outcome string;
  getGrafanaVersions : outcome json;
  getPullRequestNumber : outcome jsnumber;
  newS3Client : outcome unit;
  getBuildNumber : outcome jsnumber;
  (** [uploadLogo(info, {local, remote})]: the objects it puts and the
      reference it resolves to. *)
  uploadLogo : PluginMetaInfo.t → string → string →
               list (string * string) * outcome (option string);
  defaultPluginHistory : json;
  (** [appendPluginHistory(report, info, history)] updates [history] in
      place; the result is its new content. *)
  appendPluginHistory : PluginBuildReport.t → PluginDevInfo.t → json → json;
  uploadPackages : json → string → string → list (string * string);
  uploadTestFiles : json → string → string → list (string * string);
}.

(** ** Keys (lines 360-363, 387-394) *)

Definition root (pluginMeta : PluginMeta.t) : string :=
  "dev/" +:+ PluginMeta.id pluginMeta.

Definition dirKey (root : string) (pr : jsnumber) (branch : string)
    (buildNumber : jsnumber) : string :=
  if truthy pr
  then root +:+ "/pr/" +:+ js_string pr +:+ "/" +:+ js_string buildNumber
  else root +:+ "/branch/" +:+ branch +:+ "/" +:+ js_string buildNumber.

Definition jobKey (dirKey : string) : string := dirKey +:+ "/index.json".

Definition base (root : string) (pr : jsnumber) (branch : string) : string :=
  if truthy pr
  then root +:+ "/pr/" +:+ js_string pr +:+ "/"
  else root +:+ "/branch/" +:+ branch +:+ "/".

Definition historyKey (base : string) : string := base +:+ "history.json".

Definition Tagging (version type : string) : string :=
  "version=" +:+ version +:+ "&type=" +:+ type.

(** ** The runner *)

Definition ciDir (c : collaborators) : string := path_resolve (cwd c) "ci".
Definition packageDir (c : collaborators) : string :=
  path_resolve (ciDir c) "packages".

(** The local variables alive once the keys can be derived (line 359). *)
Record locals : Type := {
  packageInfo : json;
  pluginMeta : PluginMeta.t;
  report : PluginBuildReport.t;
  pr : jsnumber;
  build : PluginBuildInfo.t;
  version : string;
  branch : string;
  buildNumber : jsnumber;
}.

(** Lines 319-359: load what the earlier stages left, assemble the
    report, start writing it to disk, open the S3 client and read the
    build provenance. *)
Definition assemble (c : collaborators) : M world locals :=
  let ciDir := ciDir c in
  let packageDir := packageDir c in
  packageInfo ← call (require_json c (path_resolve packageDir "info.json"));
  let pluginJsonFile := path_resolve (path_resolve ciDir "dist") "plugin.json" in
  pluginMeta ← call (getPluginJson c pluginJsonFile);
  workflow ← call (agregateWorkflowInfo c);
  coverage ← call (agregateCoverageInfo c);
  tests ← call (agregateTestInfo c);
  artifactsBaseURL ← call (getCircleDownloadBaseURL c);
  grafanaVersion ← call (getGrafanaVersions c);
  pr ← call (getPullRequestNumber c);
  let report :=
    PluginBuildReport.mk pluginMeta packageInfo workflow coverage tests
      artifactsBaseURL grafanaVersion (if truthy pr then pr else JsUndefined) in
  (* Save the report to disk *)
  let file := path_resolve ciDir "report.json" in
  emit (WriteFile file (DReport report)) ;;
  call (newS3Client c) ;;
  emit NewS3Client ;;
  match PluginMetaInfo.build (PluginMeta.info pluginMeta) with
  | None => throw "Metadata missing build info"
  | Some build =>
      let version := or_else (PluginMetaInfo.version (PluginMeta.info pluginMeta)) "unknown" in
      let branch := or_else (PluginBuildInfo.branch build) "unknown" in
      buildNumber ← call (getBuildNumber c);
      mret {| packageInfo := packageInfo; pluginMeta := pluginMeta;
              report := report; pr := pr; build := build;
              version := version; branch := branch;
              buildNumber := buildNumber |}
  end.

(** [index.pr[pr] = latest] or [index.branch[branch] = latest]
    (lines 419-423). *)
Definition set_latest (pr : jsnumber) (branch : string)
    (latest : PluginDevInfo.t) (index : PluginDevSummary.t) : PluginDevSummary.t :=
  if truthy pr
  then PluginDevSummary.mk (PluginDevSummary.branch index)
         (js_set (js_string pr) latest (PluginDevSummary.pr index))
  else PluginDevSummary.mk (js_set branch latest (PluginDevSummary.branch index))
         (PluginDevSummary.pr index).

(** The record [latest] once lines 379-392 have run.  [latest.build] is
    the very object [pluginMeta.info.build], so the two assignments to
    [latest.build] also show through [report.plugin]. *)
Definition stamped_build (l : locals) : PluginBuildInfo.t :=
  let b := PluginBuildInfo.set_number (buildNumber l) (build l) in
  if truthy (pr l) then PluginBuildInfo.set_pr (pr l) b else b.

Definition latest (l : locals) (logo : option string) : PluginDevInfo.t :=
  PluginDevInfo.mk (PluginMeta.id (pluginMeta l)) (PluginMeta.name (pluginMeta l))
    logo (stamped_build l) (version l).

Definition stamped_report (l : locals) : PluginBuildReport.t :=
  let m := pluginMeta l in
  PluginBuildReport.set_plugin
    (PluginMeta.set_info
       (PluginMetaInfo.set_build (Some (stamped_build l)) (PluginMeta.info m)) m)
    (report l).

(** Lines 360-430: the idempotency check, the job record, the history
    and the two indexes. *)
Definition publish (c : collaborators) (upload : bool) (l : locals) : M world unit :=
  let ciDir := ciDir c in
  let packageDir := packageDir c in
  let root := root (pluginMeta l) in
  let dirKey := dirKey root (pr l) (branch l) (buildNumber l) in
  let jobKey := jobKey dirKey in
  registered ← s3_exists jobKey;
  if registered : bool then throw ("Job already registered: " +:+ jobKey) else
  s3_writeJSON jobKey (DReport (report l))
    (Some (Tagging (version l) (PluginMeta.type (pluginMeta l)))) ;;
  (* Upload logo *)
  let logoUpload :=
    uploadLogo c (PluginMeta.info (PluginBuildReport.plugin (report l)))
      (path_resolve ciDir "dist") root in
  emit (S3UploadLogo root) ;;
  s3_put logoUpload.1 ;;
  logo ← call logoUpload.2;
  let latest := latest l logo in
  let historyKey := historyKey (base root (pr l) (branch l)) in
  doc ← s3_readJSON historyKey (DHistory (defaultPluginHistory c));
  history ← as_history doc;
  let history := appendPluginHistory c (stamped_report l) latest history in
  s3_writeJSON historyKey (DHistory history) None ;;
  (* Private things may want to upload *)
  (if upload
   then emit (S3UploadPackages (dirKey +:+ "/packages")) ;;
        s3_start (uploadPackages c (packageInfo l) packageDir (dirKey +:+ "/packages")) ;;
        emit (S3UploadTestFiles dirKey) ;;
        s3_start (uploadTestFiles c (PluginBuildReport.tests (stamped_report l)) ciDir dirKey)
   else mret tt) ;;
  (* Update Directory Indexes *)
  let indexKey := root +:+ "/index.json" in
  doc ← s3_readJSON indexKey (DSummary PluginDevSummary.empty);
  index ← as_summary doc;
  s3_writeJSON indexKey (DSummary (set_latest (pr l) (branch l) latest index)) None ;;
  let indexKey := "dev/index.json" in
  doc ← s3_readJSON indexKey (DIndex ∅);
  pluginIndex ← as_index doc;
  s3_writeJSON indexKey
    (DIndex (js_set (PluginMeta.id (pluginMeta l)) latest pluginIndex)) None.

Definition pluginReportRunner (c : collaborators) (upload : bool) : M world unit :=
  l ← assemble c; publish c upload l.

(** The three keys of a run, from its locals. *)
Definition job_key (l : locals) : string :=
  jobKey (dirKey (root (pluginMeta l)) (pr l) (branch l) (buildNumber l)).
Definition history_key (l : locals) : string :=
  historyKey (base (root (pluginMeta l)) (pr l) (branch l)).
Definition index_key (l : locals) : string :=
  root (pluginMeta l) +:+ "/index.json".

(** ** Vocabulary for the statements about the runner *)

(** What the collaborators hand to [assemble] when they all return. *)
Record loaded : Type := {
  ld_packages : json;
  ld_plugin : PluginMeta.t;
  ld_workflow : json;
  ld_coverage : json;
  ld_tests : json;
  ld_url : string;
  ld_versions : json;
  ld_pr : jsnumber;
}.

Definition loads (c : collaborators) (x : loaded) : Prop :=
  require_json c (path_resolve (packageDir c) "info.json") = Returns (ld_packages x) ∧
  getPluginJson c (path_resolve (path_resolve (ciDir c) "dist") "plugin.json")
    = Returns (ld_plugin x) ∧
  agregateWorkflowInfo c = Returns (ld_workflow x) ∧
  agregateCoverageInfo c = Returns (ld_coverage x) ∧
  agregateTestInfo c = Returns (ld_tests x) ∧
  getCircleDownloadBaseURL c = Returns (ld_url x) ∧
  getGrafanaVersions c = Returns (ld_versions x) ∧
  getPullRequestNumber c = Returns (ld_pr x) ∧
  newS3Client c = Returns tt.

Definition report_of (x : loaded) : PluginBuildReport.t :=
  PluginBuildReport.mk (ld_plugin x) (ld_packages x) (ld_workflow x)
    (ld_coverage x) (ld_tests x) (ld_url x) (ld_versions x)
    (if truthy (ld_pr x) then ld_pr x else JsUndefined).

Definition locals_of (x : loaded) (b : PluginBuildInfo.t) (bn : jsnumber) : locals :=
  {| packageInfo := ld_packages x; pluginMeta := ld_plugin x;
     report := report_of x; pr := ld_pr x; build := b;
     version := or_else (PluginMetaInfo.version (PluginMeta.info (ld_plugin x))) "unknown";
     branch := or_else (PluginBuildInfo.branch b) "unknown";
     buildNumber := bn |}.

(** The world once the report write was started and the client made. *)
Definition assembled (c : collaborators) (x : loaded) (w : world) : world :=
  {| remote := remote w; inflight := inflight w;
     trace := trace w ++ [WriteFile (path_resolve (ciDir c) "report.json")
                            (DReport (report_of x)); NewS3Client] |}.

(** The object written under the Job Key. *)
Definition job_object (l : locals) : s3object :=
  {| body := DReport (report l);
     tagging := Some (Tagging (version l) (PluginMeta.type (pluginMeta l))) |}.

Definition plain (d : document) : s3object := {| body := d; tagging := None |}.

Definition logo_upload (c : collaborators) (l : locals)
    : list (string * string) * outcome (option string) :=
  uploadLogo c (PluginMeta.info (PluginBuildReport.plugin (report l)))
    (path_resolve (ciDir c) "dist") (root (pluginMeta l)).

(** The logo upload stays clear of the three JSON documents the stage
    reads back. *)
Definition logo_clear (c : collaborators) (l : locals) : Prop :=
  ∀ k, k ∈ [history_key l; index_key l; "dev/index.json"] →
       k ∉ (logo_upload c l).1.*1.

(** [readJSON(key, default)] yields document [d] in bucket [s]. *)
Definition reads (s : gmap string s3object) (key : string)
    (default d : document) : Prop :=
  match s !! key with Some o => body o = d | None => d = default end.

Definition side_uploads (c : collaborators) (l : locals) : list (string * s3object) :=
  let dk := dirKey (root (pluginMeta l)) (pr l) (branch l) (buildNumber l) in
  (blobs (uploadPackages c (packageInfo l) (packageDir c) (dk +:+ "/packages")) ++
   blobs (uploadTestFiles c (PluginBuildReport.tests (stamped_report l)) (ciDir c) dk))%list.

Definition side_events (l : locals) : list event :=
  let dk := dirKey (root (pluginMeta l)) (pr l) (branch l) (buildNumber l) in
  [S3UploadPackages (dk +:+ "/packages"); S3UploadTestFiles dk].

(** A complete description of a [publish] that returns: the documents it
    read, the bucket it leaves and the operations it made, in order. *)
Definition published (c : collaborators) (upload : bool) (l : locals)
    (w w' : world) : Prop :=
  ∃ (lg : option string) (h : json) (idx : PluginDevSummary.t)
    (gidx : gmap string PluginDevInfo.t),
    let s1 := put_all (blobs (logo_upload c l).1)
                (<[job_key l := job_object l]> (remote w)) in
    let h' := appendPluginHistory c (stamped_report l) (latest l lg) h in
    let s2 := <[history_key l := plain (DHistory h')]> s1 in
    let idx' := set_latest (pr l) (branch l) (latest l lg) idx in
    let s3 := <[index_key l := plain (DSummary idx')]> s2 in
    let gidx' := js_set (PluginMeta.id (pluginMeta l)) (latest l lg) gidx in
    remote w !! job_key l = None ∧
    (logo_upload c l).2 = Returns lg ∧
    reads s1 (history_key l) (DHistory (defaultPluginHistory c)) (DHistory h) ∧
    reads s2 (index_key l) (DSummary PluginDevSummary.empty) (DSummary idx) ∧
    reads s3 "dev/index.json" (DIndex ∅) (DIndex gidx) ∧
    remote w' = <["dev/index.json" := plain (DIndex gidx')]> s3 ∧
    inflight w' = (inflight w ++ (if upload then side_uploads c l else []))%list ∧
    trace w' = (trace w ++
      [S3Exists (job_key l);
       S3WriteJSON (job_key l) (DReport (report l)) (tagging (job_object l));
       S3UploadLogo (root (pluginMeta l));
       S3ReadJSON (history_key l);
       S3WriteJSON (history_key l) (DHistory h') None] ++
      (if upload then side_events l else []) ++
      [S3ReadJSON (index_key l);
       S3WriteJSON (index_key l) (DSummary idx') None;
       S3ReadJSON "dev/index.json";
       S3WriteJSON "dev/index.json" (DIndex gidx') None])%list.

(** Two runs for the same (plugin id, run kind, run number, build
    number). *)
Definition same_job (l1 l2 : locals) : Prop :=
  PluginMeta.id (pluginMeta l1) = PluginMeta.id (pluginMeta l2) ∧
  buildNumber l1 = buildNumber l2 ∧
  truthy (pr l1) = truthy (pr l2) ∧
  if truthy (pr l1) then pr l1 = pr l2 else branch l1 = branch l2.

End Report.

(** Concrete runs used to exercise the statements. *)
Module ReportExample.
Import Report.

Definition build_info (branch : option string) : PluginBuildInfo.t :=
  PluginBuildInfo.mk (Some 1573000000000) (Some "git@github.com:acme/my-panel")
    branch (Some "def456") JsUndefined JsUndefined.

Definition meta (version : option string) (build : option PluginBuildInfo.t)
    : PluginMeta.t :=
  PluginMeta.mk "my-panel" "My Panel" "panel"
    (PluginMetaInfo.mk version build "{}").

Definition collab (m : PluginMeta.t) (pullRequest : jsnumber) : collaborators :=
  {| cwd := "/home/circleci/plugin";
     require_json := λ _, Returns "{ plugin: {} }";
     getPluginJson := λ _, Returns m;
     agregateWorkflowInfo := Returns "{}";
     agregateCoverageInfo := Returns "[]";
     agregateTestInfo := Returns "[]";
     getCircleDownloadBaseURL := Returns "https://ci.example/artifacts";
     getGrafanaVersions := Returns "{}";
     getPullRequestNumber := Returns pullRequest;
     newS3Client := Returns tt;
     getBuildNumber := Returns (JsInt 17);
     uploadLogo := λ _ _ remote_prefix,
       ([(remote_prefix +:+ "/logo.svg", "<svg/>")], Returns (Some "logo.svg"));
     defaultPluginHistory := "{}";
     appendPluginHistory := λ _ _ h, h +:+ "+";
     uploadPackages := λ _ _ remote_prefix, [(remote_prefix +:+ "/my-panel-1.0.0.zip", "PK")];
     uploadTestFiles := λ _ _ _, [] |}.

(** What [collab m pullRequest] hands to [assemble]. *)
Definition inputs (m : PluginMeta.t) (pullRequest : jsnumber) : loaded :=
  {| ld_packages := "{ plugin: {} }"; ld_plugin := m;
     ld_workflow := "{}"; ld_coverage := "[]"; ld_tests := "[]";
     ld_url := "https://ci.example/artifacts"; ld_versions := "{}";
     ld_pr := pullRequest |}.

Definition stamped : PluginBuildInfo.t := build_info (Some "feature-x").

(** PR 42 of [my-panel], build 17. *)
Definition pr_run : collaborators :=
  collab (meta (Some "1.0.0") (Some stamped)) (JsInt 42).

(** A push to branch [feature-x]. *)
Definition branch_run : collaborators :=
  collab (meta (Some "1.0.0") (Some stamped)) JsUndefined.

(** A manifest that was never stamped by the Package stage. *)
Definition unstamped_run : collaborators :=
  collab (meta (Some "1.0.0") None) JsUndefined.

(** Neither version nor branch recorded. *)
Definition anonymous_run : collaborators :=
  collab (meta None (Some (build_info None))) JsUndefined.

(** A push to a branch that is called [__proto__]. *)
Definition proto_run : collaborators :=
  collab (meta (Some "1.0.0") (Some (build_info (Some "__proto__")))) JsUndefined.

Definition empty_world : world := {| remote := ∅; inflight := []; trace := [] |}.

Definition dev_info (branch : string) (n : Z) : PluginDevInfo.t :=
  PluginDevInfo.mk "my-panel" "My Panel" None
    (PluginBuildInfo.set_number (JsInt n) (build_info (Some branch))) "0.9.0".

(** A bucket whose per-plugin index knows [main] and [feature-x]. *)
Definition indexed_world : world :=
  {| remote := {[ "dev/my-panel/index.json" :=
                    plain (DSummary (PluginDevSummary.mk
                      {[ "main" := dev_info "main" 11;
                         "feature-x" := dev_info "feature-x" 12 ]} ∅)) ]};
     inflight := []; trace := [] |}.

End ReportExample.


(** * Facts about strings and keys *)

Section StringFacts.

Lemma string_app_cons (x : Ascii.ascii) (a b : string) :
  String x a +:+ b = String x (a +:+ b).
Proof. reflexivity. Qed.

Lemma string_app_nil_l (a : string) : "" +:+ a = a.
Proof. reflexivity. Qed.

Lemma string_app_assoc (a b c : string) : (a +:+ b) +:+ c = a +:+ (b +:+ c).
Proof.
  induction a as [|x a IH]; [done|].
  by rewrite !string_app_cons, IH.
Qed.

Lemma string_length_app (a b : string) :
  String.length (a +:+ b) = (String.length a + String.length b)%nat.
Proof.
  induction a as [|x a IH]; [done|].
  rewrite string_app_cons. simpl. by rewrite IH.
Qed.

(** Two strings that end in suffixes of the same length have the same
    suffix. *)
Lemma string_app_inj_suffix (a b c d : string) :
  String.length c = String.length d →
  a +:+ c = b +:+ d → a = b ∧ c = d.
Proof.
  revert b. induction a as [|x a IH]; intros [|y b] Hlen Heq;
    rewrite ?string_app_cons, ?string_app_nil_l in Heq.
  - done.
  - subst c. simpl in Hlen. rewrite string_length_app in Hlen. lia.
  - subst d. simpl in Hlen. rewrite string_length_app in Hlen. lia.
  - injection Heq as -> Heq. destruct (IH b Hlen Heq) as [-> ->]. done.
Qed.

End StringFacts.

(** * Facts about JavaScript property keys *)

Section JsFacts.

Context {A : Type}.
Implicit Types (o : gmap string A) (v : A).

(** An assignment touches no other key. *)
Lemma js_set_lookup_ne key v o k : k ≠ key → js_set key v o !! k = o !! k.
Proof.
  intros Hk. unfold js_set.
  destruct (decide (key = "__proto__")); [destruct (o !! key)|];
    by rewrite ?lookup_insert_ne.
Qed.

(** It stores the value under every key but [__proto__], and under
    [__proto__] when the object has such a property of its own. *)
Lemma js_set_lookup key v o :
  key ≠ "__proto__" ∨ is_Some (o !! key) → js_set key v o !! key = Some v.
Proof.
  intros H. unfold js_set. destruct (decide (key = "__proto__")) as [Hp|].
  - destruct H as [|[x Hx]]; [done|]. rewrite Hx. apply lookup_insert_eq.
  - apply lookup_insert_eq.
Qed.

(** Otherwise the object keeps its properties as they are. *)
Lemma js_set_proto v o :
  o !! "__proto__" = None → js_set "__proto__" v o = o.
Proof. intros H. unfold js_set. simpl. by rewrite H. Qed.

End JsFacts.

Section NumberKeys.

(** A number printed in decimal starts with a digit. *)
Lemma pretty_N_go_head (x : N) (s : string) :
  (0 < x)%N → ∃ d rest, pretty_N_go x s = String (pretty_N_char d) rest.
Proof.
  revert s. induction (N.lt_wf_0 x) as [x _ IH]. intros s Hx.
  rewrite pretty_N_go_step by done.
  destruct (decide (x `div` 10 = 0)%N) as [Hd|Hd].
  - rewrite Hd, pretty_N_go_0. eauto.
  - apply IH; [apply N.div_lt; lia|by apply N.neq_0_lt_0].
Qed.

Lemma pretty_positive_head (p : positive) :
  ∃ d rest, pretty p = String (pretty_N_char d) rest.
Proof.
  unfold pretty, pretty_positive, pretty, pretty_N.
  destruct (decide (N.pos p = 0)%N); [done|].
  apply pretty_N_go_head. lia.
Qed.

Lemma digit_head_not_proto (d : N) (rest : string) :
  String (pretty_N_char d) rest ≠ "__proto__".
Proof. unfold pretty_N_char. repeat case_match; discriminate. Qed.

(** No number is the key [__proto__]. *)
Lemma js_string_not_proto (n : jsnumber) : js_string n ≠ "__proto__".
Proof.
  destruct n as [| |[|p|p]]; simpl; try discriminate.
  unfold pretty, pretty_Z.
  destruct (pretty_positive_head p) as (d & rest & ->).
  apply digit_head_not_proto.
Qed.

End NumberKeys.


(** * The Report stage: proofs *)

Module ReportFacts.
Import Report.

(** ** The keys of one run never collide *)

Section Keys.
Variables (rt : string) (p : jsnumber) (br : string) (bn : jsnumber).

Lemma jobKey_spec :
  ∃ scope, dirKey rt p br bn = rt +:+ scope ∧ scope ≠ "" ∧
           jobKey (dirKey rt p br bn) = rt +:+ scope +:+ "/index.json".
Proof.
  unfold jobKey, dirKey. destruct (truthy p).
  - exists ("/pr/" +:+ js_string p +:+ "/" +:+ js_string bn).
    split; [done|]. split; [done|]. by rewrite string_app_assoc.
  - exists ("/branch/" +:+ br +:+ "/" +:+ js_string bn).
    split; [done|]. split; [done|]. by rewrite string_app_assoc.
Qed.

Lemma historyKey_spec :
  ∃ pre, historyKey (base rt p br) = pre +:+ "h" +:+ "istory.json".
Proof.
  unfold historyKey, base. destruct (truthy p); rewrite !string_app_assoc.
  - exists (rt +:+ "/pr/" +:+ js_string p +:+ "/").
    by rewrite !string_app_assoc.
  - exists (rt +:+ "/branch/" +:+ br +:+ "/").
    by rewrite !string_app_assoc.
Qed.

Lemma historyKey_not_index (pre : string) :
  historyKey (base rt p br) ≠ pre +:+ "/index.json".
Proof.
  destruct historyKey_spec as [q ->]. intros H.
  rewrite <- string_app_assoc in H.
  apply string_app_inj_suffix in H as [_ H]; [discriminate H | done].
Qed.

Lemma jobKey_not_historyKey :
  jobKey (dirKey rt p br bn) ≠ historyKey (base rt p br).
Proof. intros H. symmetry in H. by apply historyKey_not_index in H. Qed.

Lemma jobKey_not_indexKey :
  jobKey (dirKey rt p br bn) ≠ rt +:+ "/index.json".
Proof.
  destruct jobKey_spec as (scope & _ & Hne & ->). intros H.
  apply (inj (String.append rt)) in H.
  apply (string_app_inj_suffix scope "") in H as [? _]; done.
Qed.

Lemma historyKey_not_indexKey :
  historyKey (base rt p br) ≠ rt +:+ "/index.json".
Proof. apply historyKey_not_index. Qed.

Lemma historyKey_not_global :
  historyKey (base rt p br) ≠ "dev/index.json".
Proof. apply (historyKey_not_index "dev"). Qed.
End Keys.

Lemma jobKey_not_global (m : PluginMeta.t) p br bn :
  jobKey (dirKey (root m) p br bn) ≠ "dev/index.json".
Proof.
  destruct (jobKey_spec (root m) p br bn) as (scope & _ & _ & ->).
  unfold root. rewrite string_app_assoc. intros H.
  apply (inj (String.append "dev/")) in H.
  apply (f_equal String.length) in H.
  rewrite !string_length_app in H. simpl in H. lia.
Qed.

Lemma indexKey_not_global (m : PluginMeta.t) :
  root m +:+ "/index.json" ≠ "dev/index.json".
Proof.
  unfold root. rewrite string_app_assoc. intros H.
  apply (inj (String.append "dev/")) in H.
  apply (f_equal String.length) in H.
  rewrite !string_length_app in H. simpl in H. lia.
Qed.

Lemma keys_distinct (l : locals) :
  job_key l ≠ history_key l ∧ job_key l ≠ index_key l ∧
  job_key l ≠ "dev/index.json" ∧ history_key l ≠ index_key l ∧
  history_key l ≠ "dev/index.json" ∧ index_key l ≠ "dev/index.json".
Proof.
  unfold job_key, history_key, index_key.
  eauto 10 using jobKey_not_historyKey, jobKey_not_indexKey, jobKey_not_global,
    historyKey_not_indexKey, historyKey_not_global, indexKey_not_global.
Qed.

Lemma same_job_key (l1 l2 : locals) : same_job l1 l2 → job_key l1 = job_key l2.
Proof.
  intros (Hid & Hbn & Ht & Hscope).
  unfold job_key, jobKey, dirKey, root. rewrite <- Hid, <- Hbn, <- Ht.
  destruct (truthy (pr l1)); by rewrite Hscope.
Qed.

(** ** The bucket only grows *)

Lemma put_all_lookup_notin (objs : list (string * s3object))
    (m : gmap string s3object) (k : string) :
  k ∉ objs.*1 → put_all objs m !! k = m !! k.
Proof.
  unfold put_all. revert m. induction objs as [|[k' o] objs IH]; intros m Hk.
  - done.
  - cbn in Hk. apply not_elem_of_cons in Hk as [Hne Hk].
    cbn. rewrite IH by done. by apply lookup_insert_ne.
Qed.

Lemma put_all_is_Some (objs : list (string * s3object))
    (m : gmap string s3object) (k : string) :
  is_Some (m !! k) → is_Some (put_all objs m !! k).
Proof.
  unfold put_all. revert m. induction objs as [|[k' o] objs IH]; intros m Hk.
  - done.
  - cbn. apply IH. destruct (decide (k' = k)) as [->|Hne].
    + rewrite lookup_insert_eq. eauto.
    + by rewrite lookup_insert_ne.
Qed.

Lemma blobs_keys (files : list (string * string)) : (blobs files).*1 = files.*1.
Proof. unfold blobs. induction files as [|[k v] files IH]; cbn; congruence. Qed.

(** ** Running the two halves of the runner *)

Ltac run :=
  cbv beta iota zeta delta
    [mbind M_bind mret M_ret call emit modify gets throw try_catch
     s3_exists s3_writeJSON s3_readJSON s3_put s3_start
     as_history as_summary as_index];
  simpl.

Lemma assemble_frame c w o w' :
  assemble c w = (o, w') → remote w' = remote w ∧ inflight w' = inflight w.
Proof.
  unfold assemble. run. intros H.
  repeat match type of H with
  | context [match ?x with _ => _ end] => destruct x; simpl in H
  end; by injection H as <- <-.
Qed.

Lemma assemble_no_build c x w :
  loads c x →
  PluginMetaInfo.build (PluginMeta.info (ld_plugin x)) = None →
  assemble c w = (Throws "Metadata missing build info", assembled c x w).
Proof.
  intros (H1 & H2 & H3 & H4 & H5 & H6 & H7 & H8 & H9) Hb.
  unfold assemble. run.
  rewrite H1, H2, H3, H4, H5, H6, H7, H8, H9, Hb.
  unfold assembled. by rewrite <- app_assoc.
Qed.

Lemma assemble_loaded c x b bn w :
  loads c x →
  PluginMetaInfo.build (PluginMeta.info (ld_plugin x)) = Some b →
  getBuildNumber c = Returns bn →
  assemble c w = (Returns (locals_of x b bn), assembled c x w).
Proof.
  intros (H1 & H2 & H3 & H4 & H5 & H6 & H7 & H8 & H9) Hb Hbn.
  unfold assemble. run.
  rewrite H1, H2, H3, H4, H5, H6, H7, H8, H9, Hb, Hbn.
  unfold assembled. by rewrite <- app_assoc.
Qed.

Lemma assemble_returns c w l w1 :
  assemble c w = (Returns l, w1) →
  ∃ x b bn, loads c x ∧
    PluginMetaInfo.build (PluginMeta.info (ld_plugin x)) = Some b ∧
    getBuildNumber c = Returns bn ∧
    l = locals_of x b bn ∧ w1 = assembled c x w.
Proof.
  unfold assemble, loads. run. intros H.
  repeat match type of H with
  | context [match ?o with _ => _ end] =>
      let E := fresh "E" in destruct o eqn:E; simpl in H; try done
  end.
  all: injection H as <- <-.
  all: match goal with E : newS3Client _ = Returns ?u |- _ => destruct u end.
  all: eexists (Build_loaded _ _ _ _ _ _ _ _), _, _; simpl.
  all: repeat split; try eassumption.
  all: unfold locals_of, assembled, report_of; simpl.
  all: match goal with E : truthy _ = _ |- _ => rewrite E end.
  all: by rewrite <- ?app_assoc.
Qed.

Lemma runner_split c upload w l w1 :
  assemble c w = (Returns l, w1) →
  pluginReportRunner c upload w = publish c upload l w1.
Proof. intros H. unfold pluginReportRunner. run. by rewrite H. Qed.

Lemma runner_aborts c upload w e w1 :
  assemble c w = (Throws e, w1) →
  pluginReportRunner c upload w = (Throws e, w1).
Proof. intros H. unfold pluginReportRunner. run. by rewrite H. Qed.

Lemma publish_registered c upload l w :
  is_Some (remote w !! job_key l) →
  publish c upload l w =
    (Throws ("Job already registered: " +:+ job_key l),
     {| remote := remote w; inflight := inflight w;
        trace := trace w ++ [S3Exists (job_key l)] |}).
Proof.
  intros [o Ho]. unfold publish. run. fold (job_key l). by rewrite Ho.
Qed.

Lemma publish_returns c upload l w w' :
  publish c upload l w = (Returns tt, w') → published c upload l w w'.
Proof.
  unfold publish, published, reads, plain. run.
  fold (job_key l) (history_key l) (index_key l) (logo_upload c l) (job_object l).
  intros H.
  destruct (remote w !! job_key l) eqn:Hfresh; [done|].
  destruct (logo_upload c l).2 as [lg|] eqn:Hlogo; [|done].
  exists lg. simpl in H.
  repeat match type of H with
  | context [match ?m !! ?k with _ => _ end] =>
      let E := fresh "E" in let o := fresh "o" in
      destruct (m !! k) as [o|] eqn:E; [destruct (body o) eqn:?|];
      simpl in H; try done
  | context [if upload then _ else _] => destruct upload; simpl in H
  end.
  all: injection H as <-; simpl.
  all: eexists _, _, _; repeat split; try done.
  all: rewrite <- ?app_assoc, ?app_nil_r; try done.
  all: repeat match goal with
       | E : ?m !! ?k = _ |- context [?m !! ?k] => rewrite E
       end; done.
Qed.

Lemma published_publish c upload l w w' :
  published c upload l w w' → publish c upload l w = (Returns tt, w').
Proof.
  unfold publish, published, reads, plain. run.
  fold (job_key l) (history_key l) (index_key l) (logo_upload c l) (job_object l).
  destruct w' as [r' i' t']; simpl.
  intros (lg & h & idx & gidx & Hfresh & Hlogo & Hh & Hi & Hg & -> & -> & ->).
  rewrite Hfresh, Hlogo. simpl.
  destruct (_ !! history_key l) as [o|] eqn:E;
    [rewrite Hh|injection Hh as ->]; simpl.
  all: destruct upload; simpl.
  all: destruct (_ !! index_key l) as [o1|] eqn:E1;
    [rewrite Hi|injection Hi as ->]; simpl.
  all: destruct (_ !! "dev/index.json") as [o2|] eqn:E2;
    [rewrite Hg|injection Hg as ->]; simpl.
  all: rewrite <- ?app_assoc, ?app_nil_r; done.
Qed.

(** A [publish] that finds its documents in shape returns. *)
Lemma publish_succeeds c upload l w lg h idx gidx :
  remote w !! job_key l = None →
  (logo_upload c l).2 = Returns lg →
  logo_clear c l →
  reads (remote w) (history_key l) (DHistory (defaultPluginHistory c)) (DHistory h) →
  reads (remote w) (index_key l) (DSummary PluginDevSummary.empty) (DSummary idx) →
  reads (remote w) "dev/index.json" (DIndex ∅) (DIndex gidx) →
  ∃ w', publish c upload l w = (Returns tt, w') ∧ published c upload l w w' ∧
        S3WriteJSON (job_key l) (DReport (report l)) (tagging (job_object l)) ∈ trace w'.
Proof.
  intros Hfresh Hlogo Hclear Hh Hi Hg.
  pose proof (Hclear (history_key l) ltac:(set_unfold; tauto)) as Hc1.
  pose proof (Hclear (index_key l) ltac:(set_unfold; tauto)) as Hc2.
  pose proof (Hclear "dev/index.json" ltac:(set_unfold; tauto)) as Hc3.
  rewrite <- blobs_keys in Hc1, Hc2, Hc3.
  eexists {| remote := _; inflight := _; trace := _ |}.
  assert (Hpub : ∀ w', published c upload l w w' →
            publish c upload l w = (Returns tt, w') ∧ published c upload l w w' ∧
            S3WriteJSON (job_key l) (DReport (report l)) (tagging (job_object l))
              ∈ trace w').
  { intros w' Hp. split; [by apply published_publish|]. split; [done|].
    destruct Hp as (? & ? & ? & ? & _ & _ & _ & _ & _ & _ & _ & ->).
    set_unfold. tauto. }
  apply Hpub. exists lg, h, idx, gidx. simpl.
  split; [done|]. split; [done|].
  unfold reads in *.
  destruct (keys_distinct l) as (K1 & K2 & K3 & K4 & K5 & K6).
  rewrite !lookup_insert_ne by done.
  rewrite !put_all_lookup_notin by done.
  rewrite !lookup_insert_ne by done.
  done.
Qed.

End ReportFacts.

(** * The Report stage: the properties of the specification *)

Module ReportClaims.
Import Report ReportFacts.

(** [C9] When the manifest loaded from the canonical distribution tree
    carries no build provenance, the stage fails with "Metadata missing
    build info".  By then the local write of [report.json] has been
    started and the S3 client constructed, and nothing else happened: the
    bucket is untouched and the trace holds no [exists], [readJSON],
    [writeJSON] or upload. *)
Theorem report_missing_build_info c upload w x :
  loads c x →
  PluginMetaInfo.build (PluginMeta.info (ld_plugin x)) = None →
  ∃ w', pluginReportRunner c upload w = (Throws "Metadata missing build info", w') ∧
        remote w' = remote w ∧ inflight w' = inflight w ∧
        trace w' = trace w ++
          [WriteFile (path_resolve (ciDir c) "report.json") (DReport (report_of x));
           NewS3Client] ∧
        filter (λ e, is_remote e = true) (drop (length (trace w)) (trace w')) = [].
Proof.
  intros Hl Hb. exists (assembled c x w).
  rewrite (runner_aborts _ _ _ _ _ (assemble_no_build c x w Hl Hb)).
  repeat split. simpl. by rewrite drop_app_length.
Qed.

Lemma report_missing_build_info_witness :
  ∃ w', pluginReportRunner ReportExample.unstamped_run true ReportExample.empty_world
          = (Throws "Metadata missing build info", w') ∧
        remote w' = ∅ ∧ inflight w' = [].
Proof.
  destruct (report_missing_build_info ReportExample.unstamped_run true
              ReportExample.empty_world
              (ReportExample.inputs (ReportExample.meta (Some "1.0.0") None)
                 JsUndefined))
    as (w' & Hrun & Hr & Hi & _).
  - repeat split.
  - reflexivity.
  - exists w'. auto.
Defined.

(** [C1] Publication happens at most once per Job Key.  Take a run whose
    inputs are loaded ([assemble] returns).  If the bucket already holds
    an object under its Job Key, the run fails with "Job already
    registered: <key>" after the [exists] check alone, so nothing was
    written.  In particular this is what happens to a second attempt for
    the same (plugin id, run kind, run number, build number), started
    after a first publication returned (with its side uploads landed or
    still in flight): it fails, and the whole bucket, hence the record
    under the Job Key, is as the first publication left it.  That record
    is the report with its tags unless the logo upload overwrote it. *)
Theorem report_publish_at_most_once c upload w l w1 :
  assemble c w = (Returns l, w1) →
  let failed : outcome unit * world :=
    (Throws ("Job already registered: " +:+ job_key l),
     {| remote := remote w; inflight := inflight w;
        trace := trace w1 ++ [S3Exists (job_key l)] |}) in
  (is_Some (remote w !! job_key l) → pluginReportRunner c upload w = failed) ∧
  (∀ c0 upload0 w0 l0 w0' wp,
      assemble c0 w0 = (Returns l0, w0') →
      publish c0 upload0 l0 w0' = (Returns tt, wp) →
      same_job l0 l →
      w = wp ∨ w = settle wp →
      pluginReportRunner c upload w = failed ∧
      remote failed.2 !! job_key l0 = remote w !! job_key l0 ∧
      is_Some (remote w !! job_key l0) ∧
      (job_key l0 ∉ (logo_upload c0 l0).1.*1 →
       remote wp !! job_key l0 = Some (job_object l0))).
Proof.
  intros Ha failed.
  assert (Hreg : is_Some (remote w !! job_key l) →
                 pluginReportRunner c upload w = failed).
  { intros Hsome. rewrite (runner_split _ _ _ _ _ Ha).
    destruct (assemble_frame _ _ _ _ Ha) as [Hr Hi].
    rewrite publish_registered by (by rewrite Hr).
    unfold failed. by rewrite Hr, Hi. }
  split; [done|].
  intros c0 upload0 w0 l0 w0' wp Ha0 Hp Hsame Hw.
  apply same_job_key in Hsame.
  apply publish_returns in Hp
    as (lg & h & idx & gidx & Hfresh & Hlogo & Hh & Hi & Hg & Hrem & Hinf & Htr).
  assert (Hjob : is_Some (remote wp !! job_key l0)).
  { rewrite Hrem.
    destruct (keys_distinct l0) as (K1 & K2 & K3 & _).
    rewrite !lookup_insert_ne by done.
    apply put_all_is_Some. rewrite lookup_insert_eq. eauto. }
  assert (Hw' : is_Some (remote w !! job_key l0)).
  { destruct Hw as [->| ->]; [done|]. by apply put_all_is_Some. }
  split; [apply Hreg; by rewrite <- Hsame|].
  split; [done|]. split; [done|].
  intros Hclear. rewrite Hrem.
  destruct (keys_distinct l0) as (K1 & K2 & K3 & _).
  rewrite !lookup_insert_ne by done.
  rewrite put_all_lookup_notin by (by rewrite blobs_keys).
  apply lookup_insert_eq.
Qed.

Lemma report_publish_at_most_once_witness :
  ∃ w1 w2,
    pluginReportRunner ReportExample.pr_run true ReportExample.empty_world
      = (Returns tt, w1) ∧
    pluginReportRunner ReportExample.pr_run true w1
      = (Throws "Job already registered: dev/my-panel/pr/42/17/index.json", w2) ∧
    remote w2 = remote w1 ∧
    is_Some (remote w1 !! "dev/my-panel/pr/42/17/index.json").
Proof.
  pose (c := ReportExample.pr_run).
  pose (l := locals_of
               (ReportExample.inputs
                  (ReportExample.meta (Some "1.0.0") (Some ReportExample.stamped))
                  (JsInt 42))
               ReportExample.stamped (JsInt 17)).
  pose (w0' := (assemble c ReportExample.empty_world).2).
  pose (wp := (publish c true l w0').2).
  assert (Ha : assemble c wp = (Returns l, (assemble c wp).2))
    by (vm_compute; reflexivity).
  destruct (report_publish_at_most_once c true wp l _ Ha) as [_ H].
  destruct (H c true ReportExample.empty_world l w0' wp)
    as (Hrun & _ & Hsome & _).
  - vm_compute; reflexivity.
  - vm_compute; reflexivity.
  - repeat split.
  - by left.
  - exists wp, (pluginReportRunner c true wp).2.
    split; [vm_compute; reflexivity|].
    split; [rewrite Hrun; reflexivity|].
    split; [rewrite Hrun; reflexivity|].
    exact Hsome.
Defined.

(** [C5] The keys of a run.  The Job Key is the PR- or branch-scoped
    directory key followed by "/index.json" and the History Key the PR-
    or branch-scoped base followed by "history.json"; these are the keys
    the runner checks, writes and reads, in this order.  For plugin
    [my-panel], pull request 42 and build number 17 they are
    "dev/my-panel/pr/42/17/index.json" and
    "dev/my-panel/pr/42/history.json". *)
Theorem report_keys_scenario c upload w l w1 w' :
  assemble c w = (Returns l, w1) →
  publish c upload l w1 = (Returns tt, w') →
  let id := PluginMeta.id (pluginMeta l) in
  let scope := if truthy (pr l) then "/pr/" +:+ js_string (pr l)
               else "/branch/" +:+ branch l in
  (getPluginJson c (path_resolve (path_resolve (ciDir c) "dist") "plugin.json")
     = Returns (pluginMeta l) ∧
   getPullRequestNumber c = Returns (pr l) ∧
   getBuildNumber c = Returns (buildNumber l)) ∧
  (∃ h rest,
     trace w' = trace w1 ++
       [S3Exists (job_key l);
        S3WriteJSON (job_key l) (DReport (report l)) (tagging (job_object l));
        S3UploadLogo ("dev/" +:+ id);
        S3ReadJSON (history_key l);
        S3WriteJSON (history_key l) (DHistory h) None] ++ rest) ∧
  job_key l = ("dev/" +:+ id +:+ scope +:+ "/" +:+ js_string (buildNumber l))
                +:+ "/index.json" ∧
  history_key l = ("dev/" +:+ id +:+ scope +:+ "/") +:+ "history.json" ∧
  (id = "my-panel" → pr l = JsInt 42 → buildNumber l = JsInt 17 →
   job_key l = "dev/my-panel/pr/42/17/index.json" ∧
   history_key l = "dev/my-panel/pr/42/history.json").
Proof.
  intros Ha Hp id scope.
  apply assemble_returns in Ha as (x & b & bn & Hl & Hb & Hbn & -> & ->).
  apply publish_returns in Hp
    as (lg & h & idx & gidx & _ & _ & _ & _ & _ & _ & _ & Htr).
  split; [by destruct Hl as (_ & ? & _ & _ & _ & _ & _ & ? & _)|].
  split; [eexists _, _; exact Htr|].
  assert (Hjk : job_key (locals_of x b bn) =
                ("dev/" +:+ id +:+ scope +:+ "/" +:+ js_string bn) +:+ "/index.json").
  { unfold job_key, jobKey, dirKey, root, scope, id. simpl.
    destruct (truthy (ld_pr x)); by rewrite !string_app_assoc. }
  assert (Hhk : history_key (locals_of x b bn) =
                ("dev/" +:+ id +:+ scope +:+ "/") +:+ "history.json").
  { unfold history_key, historyKey, base, root, scope, id. simpl.
    destruct (truthy (ld_pr x)); by rewrite !string_app_assoc. }
  split; [done|]. split; [done|].
  intros Hid Hpr Hbuild. rewrite Hjk, Hhk.
  unfold scope. simpl in *. rewrite Hid, Hpr, Hbuild. done.
Qed.

Lemma report_keys_scenario_witness :
  ∃ l w1 w',
    assemble ReportExample.pr_run ReportExample.empty_world = (Returns l, w1) ∧
    publish ReportExample.pr_run false l w1 = (Returns tt, w') ∧
    job_key l = "dev/my-panel/pr/42/17/index.json" ∧
    history_key l = "dev/my-panel/pr/42/history.json".
Proof.
  pose (c := ReportExample.pr_run).
  pose (l := locals_of
               (ReportExample.inputs
                  (ReportExample.meta (Some "1.0.0") (Some ReportExample.stamped))
                  (JsInt 42))
               ReportExample.stamped (JsInt 17)).
  pose (w1 := (assemble c ReportExample.empty_world).2).
  pose (w' := (publish c false l w1).2).
  assert (Ha : assemble c ReportExample.empty_world = (Returns l, w1))
    by (vm_compute; reflexivity).
  assert (Hp : publish c false l w1 = (Returns tt, w'))
    by (vm_compute; reflexivity).
  destruct (report_keys_scenario c false _ l w1 w' Ha Hp)
    as (_ & _ & _ & _ & H).
  exists l, w1, w'. split; [exact Ha|]. split; [exact Hp|].
  apply H; reflexivity.
Defined.

(** [C7], on the code.  Whatever index the bucket held before the run
    (none at all counts as the empty index), a run that returns leaves
    under "dev/<pluginId>/index.json" that index with every branch entry
    and PR entry other than the current one as it was.  The entry of the
    current PR, and that of the current branch unless the branch is
    called [__proto__], is replaced by the new History Record.  For the
    branch [__proto__] the assignment [index.branch[branch] = latest]
    only writes an entry that the stored index already had; otherwise it
    changes the prototype of [index.branch], and the index is written
    back without any entry for the branch. *)
Theorem report_index_frame c upload l w w' idx :
  publish c upload l w = (Returns tt, w') →
  reads (remote w) (index_key l) (DSummary PluginDevSummary.empty) (DSummary idx) →
  index_key l ∉ (logo_upload c l).1.*1 →
  ∃ lg idx',
    (logo_upload c l).2 = Returns lg ∧
    remote w' !! index_key l = Some (plain (DSummary idx')) ∧
    if truthy (pr l)
    then PluginDevSummary.branch idx' = PluginDevSummary.branch idx ∧
         PluginDevSummary.pr idx' !! js_string (pr l) = Some (latest l lg) ∧
         ∀ k, k ≠ js_string (pr l) →
              PluginDevSummary.pr idx' !! k = PluginDevSummary.pr idx !! k
    else PluginDevSummary.pr idx' = PluginDevSummary.pr idx ∧
         (∀ k, k ≠ branch l →
               PluginDevSummary.branch idx' !! k = PluginDevSummary.branch idx !! k) ∧
         (branch l ≠ "__proto__" ∨ is_Some (PluginDevSummary.branch idx !! branch l) →
          PluginDevSummary.branch idx' !! branch l = Some (latest l lg)) ∧
         (branch l = "__proto__" →
          PluginDevSummary.branch idx !! branch l = None →
          idx' = idx ∧ PluginDevSummary.branch idx' !! branch l = None).
Proof.
  intros Hp Hidx Hclear.
  apply publish_returns in Hp
    as (lg & h & idx0 & gidx & _ & Hlogo & _ & Hi & _ & Hrem & _ & _).
  destruct (keys_distinct l) as (K1 & K2 & K3 & K4 & K5 & K6).
  assert (idx0 = idx) as ->.
  { unfold reads in Hi, Hidx.
    rewrite lookup_insert_ne in Hi by done.
    rewrite put_all_lookup_notin in Hi by (by rewrite blobs_keys).
    rewrite lookup_insert_ne in Hi by done.
    destruct (remote w !! index_key l); congruence. }
  exists lg, (set_latest (pr l) (branch l) (latest l lg) idx).
  split; [done|]. split.
  { rewrite Hrem. rewrite lookup_insert_ne by done. apply lookup_insert_eq. }
  unfold set_latest. destruct (truthy (pr l)); simpl.
  - split; [done|]. split.
    + apply js_set_lookup. left. apply js_string_not_proto.
    + intros k Hk. by apply js_set_lookup_ne.
  - split; [done|]. split; [intros k Hk; by apply js_set_lookup_ne|].
    split; [apply js_set_lookup|].
    intros Hproto Hnone. rewrite Hproto in Hnone |- *.
    rewrite (js_set_proto _ _ Hnone). split; [by destruct idx|done].
Qed.

Lemma report_index_frame_witness :
  (∃ w' idx',
     pluginReportRunner ReportExample.branch_run false ReportExample.indexed_world
       = (Returns tt, w') ∧
     remote w' !! "dev/my-panel/index.json" = Some (plain (DSummary idx')) ∧
     PluginDevSummary.branch idx' !! "main" = Some (ReportExample.dev_info "main" 11) ∧
     PluginDevSummary.branch idx' !! "feature-x" ≠
       Some (ReportExample.dev_info "feature-x" 12) ∧
     PluginDevSummary.pr idx' = ∅) ∧
  (∃ w',
     pluginReportRunner ReportExample.proto_run false ReportExample.indexed_world
       = (Returns tt, w') ∧
     remote w' !! "dev/my-panel/index.json"
       = ReportExample.indexed_world.(remote) !! "dev/my-panel/index.json" ∧
     ∃ idx', remote w' !! "dev/my-panel/index.json" = Some (plain (DSummary idx')) ∧
             PluginDevSummary.branch idx' !! "__proto__" = None).
Proof.
  pose (prior := PluginDevSummary.mk
                   {[ "main" := ReportExample.dev_info "main" 11;
                      "feature-x" := ReportExample.dev_info "feature-x" 12 ]} ∅).
  split.
  - pose (c := ReportExample.branch_run).
    pose (l := locals_of
                 (ReportExample.inputs
                    (ReportExample.meta (Some "1.0.0") (Some ReportExample.stamped))
                    JsUndefined)
                 ReportExample.stamped (JsInt 17)).
    pose (w1 := (assemble c ReportExample.indexed_world).2).
    pose (w' := (publish c false l w1).2).
    assert (Hp : publish c false l w1 = (Returns tt, w'))
      by (vm_compute; reflexivity).
    destruct (report_index_frame c false l w1 w' prior Hp)
      as (lg & idx' & Hlg & Hlook & Hpr & Hframe & Hnew & _).
    + vm_compute; reflexivity.
    + vm_compute. intros H.
      repeat (inversion H as [|? ? ? H']; clear H; rename H' into H).
    + exists w', idx'. split; [vm_compute; reflexivity|].
      split; [exact Hlook|]. split.
      * rewrite (Hframe "main") by discriminate. reflexivity.
      * split; [|exact Hpr].
        change (branch l) with "feature-x" in Hnew.
        rewrite Hnew by (left; discriminate).
        injection Hlg as <-. discriminate.
  - pose (c := ReportExample.proto_run).
    pose (b := ReportExample.build_info (Some "__proto__")).
    pose (l := locals_of
                 (ReportExample.inputs (ReportExample.meta (Some "1.0.0") (Some b))
                    JsUndefined)
                 b (JsInt 17)).
    pose (w1 := (assemble c ReportExample.indexed_world).2).
    pose (w' := (publish c false l w1).2).
    assert (Hp : publish c false l w1 = (Returns tt, w'))
      by (vm_compute; reflexivity).
    destruct (report_index_frame c false l w1 w' prior Hp)
      as (lg & idx' & Hlg & Hlook & Hpr & Hframe & _ & Hproto).
    + vm_compute; reflexivity.
    + vm_compute. intros H.
      repeat (inversion H as [|? ? ? H']; clear H; rename H' into H).
    + destruct Hproto as [Hsame Hnone]; [reflexivity..|].
      exists w'. split; [vm_compute; reflexivity|].
      change (index_key l) with "dev/my-panel/index.json" in Hlook.
      rewrite Hlook, Hsame. split; [reflexivity|].
      exists prior. split; [reflexivity|]. reflexivity.
Defined.


(** [C10] A manifest without a version, or a build record without a
    branch, does not fail the stage: "unknown" stands in.  With the
    inputs loaded, the Job Key free, the logo upload returning and the
    history and index documents in shape, the run returns and writes the
    job record; when the version is missing its tags are
    "version=unknown&type=<type>", and for a branch run with no branch
    recorded its key is
    "dev/<pluginId>/branch/unknown/<buildNumber>/index.json". *)
Theorem report_unknown_defaults c upload w x b bn lg h idx gidx :
  loads c x →
  PluginMetaInfo.build (PluginMeta.info (ld_plugin x)) = Some b →
  getBuildNumber c = Returns bn →
  let l := locals_of x b bn in
  let m := ld_plugin x in
  remote w !! job_key l = None →
  (logo_upload c l).2 = Returns lg →
  logo_clear c l →
  reads (remote w) (history_key l) (DHistory (defaultPluginHistory c)) (DHistory h) →
  reads (remote w) (index_key l) (DSummary PluginDevSummary.empty) (DSummary idx) →
  reads (remote w) "dev/index.json" (DIndex ∅) (DIndex gidx) →
  ∃ w' tags,
    pluginReportRunner c upload w = (Returns tt, w') ∧
    S3WriteJSON (job_key l) (DReport (report_of x)) (Some tags) ∈ trace w' ∧
    (PluginMetaInfo.version (PluginMeta.info m) = None →
     tags = "version=unknown&type=" +:+ PluginMeta.type m) ∧
    (PluginBuildInfo.branch b = None → truthy (ld_pr x) = false →
     job_key l = "dev/" +:+ PluginMeta.id m +:+ "/branch/unknown/" +:+
                 js_string bn +:+ "/index.json").
Proof.
  intros Hl Hb Hbn l m Hfresh Hlogo Hclear Hh Hi Hg.
  destruct (publish_succeeds c upload l (assembled c x w) lg h idx gidx)
    as (w' & Hrun & _ & Hev); try done.
  exists w', (Tagging (version l) (PluginMeta.type m)).
  split.
  { by rewrite (runner_split _ _ _ _ _ (assemble_loaded c x b bn w Hl Hb Hbn)). }
  split; [exact Hev|]. split.
  - intros Hv. unfold l, Tagging. simpl. fold m. by rewrite Hv.
  - intros Hbr Hpr. unfold job_key, jobKey, dirKey, root, l. simpl. fold m.
    rewrite Hbr, Hpr. simpl. by rewrite !string_app_assoc.
Qed.

Lemma report_unknown_defaults_witness :
  ∃ w',
    pluginReportRunner ReportExample.anonymous_run false ReportExample.empty_world
      = (Returns tt, w') ∧
    S3WriteJSON "dev/my-panel/branch/unknown/17/index.json"
      (DReport (report_of (ReportExample.inputs
                             (ReportExample.meta None
                                (Some (ReportExample.build_info None)))
                             JsUndefined)))
      (Some "version=unknown&type=panel") ∈ trace w'.
Proof.
  destruct (report_unknown_defaults ReportExample.anonymous_run false
              ReportExample.empty_world
              (ReportExample.inputs
                 (ReportExample.meta None (Some (ReportExample.build_info None)))
                 JsUndefined)
              (ReportExample.build_info None) (JsInt 17)
              (Some "logo.svg") "{}" PluginDevSummary.empty ∅)
    as (w' & tags & Hrun & Hev & Htags & Hkey).
  - repeat split.
  - reflexivity.
  - reflexivity.
  - reflexivity.
  - reflexivity.
  - intros k Hk. rewrite !elem_of_cons, elem_of_nil in Hk.
    change ((logo_upload _ _).1.*1) with ["dev/my-panel/logo.svg"].
    rewrite elem_of_cons, elem_of_nil.
    destruct Hk as [->|[->|[->|[]]]]; intros [H|[]]; vm_compute in H;
      discriminate H.
  - reflexivity.
  - reflexivity.
  - reflexivity.
  - exists w'. split; [exact Hrun|].
    rewrite (Htags eq_refl) in Hev. rewrite (Hkey eq_refl eq_refl) in Hev.
    exact Hev.
Defined.

End ReportClaims.

(** * The Package stage: proofs *)

Module PackageFacts.
Import Package.

Ltac run :=
  cbv beta iota zeta delta
    [mbind M_bind mret M_ret call emit modify gets throw try_catch
     recreate_folders readdirSync_jobs load_manifest write_manifest chdir
     run_zip statSync run_unzip];
  simpl.

Lemma set_dist_id w : set_dist (dist w) w = w.
Proof. by destruct w. Qed.

Lemma merge_job_absent c n w : merge_job c (n, None) w = (Returns tt, w).
Proof. done. Qed.

(** ** What [cp -rn] does *)

Lemma clashes_spec (dst src : tree) :
  clashes dst src ↔
  set_Exists (refuses dst) (dom src) ∨ set_Exists (skips dst) (dom src).
Proof. unfold clashes, set_Exists. naive_solver. Qed.


(** Nothing in the way: every file is copied. *)
Lemma copied_all (dst src : tree) :
  ¬ clashes dst src →
  filter (λ kv, ¬ skips dst kv.1 ∧ ¬ refuses dst kv.1) src = src.
Proof.
  intros H. apply map_filter_id. intros p f Hp. simpl.
  apply elem_of_dom_2 in Hp.
  split; intros Hc; apply H; exists p; auto.
Qed.

Lemma cp_rn_clean c src w :
  ¬ clashes (canonical w) src →
  cp_rn c src w = (Returns tt, set_dist (Some (canonical w ∪ src)) w).
Proof.
  intros H. unfold cp_rn, canonical in *. simpl. rewrite copied_all by done.
  rewrite clashes_spec in H.
  rewrite (bool_decide_eq_false_2 (set_Exists (refuses _) _)) by tauto.
  rewrite (bool_decide_eq_false_2 (set_Exists (skips _) _)) by tauto.
  by rewrite andb_false_r.
Qed.


(** A folder that would replace a file makes it fail everywhere. *)
Lemma cp_rn_refused c src w :
  set_Exists (refuses (canonical w)) (dom src) →
  (cp_rn c src w).1 = Throws "Command failed: cp -rn".
Proof.
  intros H. unfold cp_rn, canonical in *. simpl.
  by rewrite (bool_decide_eq_true_2 _ H).
Qed.


(** ** One job *)

Lemma merge_job_cp c n t w :
  merge_job c (n, Some t) w =
    match cp_rn c t w with
    | (Returns _, w') => (Returns tt, w')
    | (Throws _, w') => (Throws "Duplicate files found in dist folders", w')
    end.
Proof.
  unfold merge_job, try_catch, throw. simpl.
  by destruct (cp_rn c t w) as [[[]|] w'].
Qed.

Lemma merge_job_copies c n t w :
  ¬ clashes (canonical w) t →
  merge_job c (n, Some t) w = (Returns tt, set_dist (Some (canonical w ∪ t)) w).
Proof. intros H. by rewrite merge_job_cp, cp_rn_clean. Qed.


(** Whatever goes wrong with the copy of a job is a duplicate. *)
Lemma merge_job_throws c j w e w' :
  merge_job c j w = (Throws e, w') → e = "Duplicate files found in dist folders".
Proof.
  destruct j as [n [t|]]; [|done]. rewrite merge_job_cp.
  destruct (cp_rn c t w) as [[[]|] w1]; [done|]. by intros [= <- _].
Qed.

(** ** The loop over the jobs *)

Lemma loop_clean c js w :
  clean (canonical w) (omap snd js) →
  for_of js (merge_job c) w =
    (Returns tt, set_dist (merge_into (dist w) (omap snd js)) w).
Proof.
  revert w. induction js as [|[n [t|]] js IH]; intros w H; simpl.
  - by rewrite set_dist_id.
  - run. simpl in H. destruct H as [Hfree Hrest].
    rewrite merge_job_copies by done. by rewrite IH.
  - run. rewrite ?merge_job_absent. by apply IH.
Qed.


(** ** Contributions, pairwise *)

Lemma overlap_free_cons (t : tree) (cs : list tree) :
  overlap_free (t :: cs) ↔ (∀ t', t' ∈ cs → dom t ## dom t') ∧ overlap_free cs.
Proof.
  unfold overlap_free. split.
  - intros H. split.
    + intros t' [j Hj]%list_elem_of_lookup. apply (H 0%nat (S j)); [lia|done..].
    + intros i j t1 t2 Hij H1 H2. apply (H (S i) (S j)); [lia|done..].
  - intros [Hh Ht] [|i] [|j] t1 t2 Hij H1 H2; simpl in *; try lia.
    + injection H1 as <-. apply Hh. by eapply list_elem_of_lookup_2.
    + apply (Ht i j); [lia|done..].
Qed.

Lemma clash_free_cons (t : tree) (cs : list tree) :
  clash_free (t :: cs) ↔ (∀ t', t' ∈ cs → ¬ clashes t t') ∧ clash_free cs.
Proof.
  unfold clash_free. split.
  - intros H. split.
    + intros t' [j Hj]%list_elem_of_lookup. apply (H 0%nat (S j)); [lia|done..].
    + intros i j t1 t2 Hij H1 H2. apply (H (S i) (S j)); [lia|done..].
  - intros [Hh Ht] [|i] [|j] t1 t2 Hij H1 H2; simpl in *; try lia.
    + injection H1 as <-. apply Hh. by eapply list_elem_of_lookup_2.
    + apply (Ht i j); [lia|done..].
Qed.

Lemma skips_union (a b : tree) p : skips (a ∪ b) p ↔ skips a p ∨ skips b p.
Proof.
  unfold skips, has_dir, set_Exists. rewrite dom_union_L.
  setoid_rewrite elem_of_union. naive_solver.
Qed.

Lemma refuses_union (a b : tree) p : refuses (a ∪ b) p ↔ refuses a p ∨ refuses b p.
Proof.
  unfold refuses, in_file, set_Exists. rewrite dom_union_L.
  setoid_rewrite elem_of_union. naive_solver.
Qed.

Lemma clashes_union (a b t : tree) : clashes (a ∪ b) t ↔ clashes a t ∨ clashes b t.
Proof.
  unfold clashes, set_Exists.
  setoid_rewrite skips_union. setoid_rewrite refuses_union. naive_solver.
Qed.

Lemma clashes_empty (src : tree) : ¬ clashes ∅ src.
Proof.
  unfold clashes, skips, refuses, has_dir, in_file, set_Exists.
  rewrite dom_empty_L. setoid_rewrite elem_of_empty. naive_solver.
Qed.



Lemma clean_clash_free (acc : tree) (cs : list tree) :
  clean acc cs ↔ clash_free (acc :: cs).
Proof.
  revert acc. induction cs as [|t cs IH]; intros acc; simpl.
  - rewrite clash_free_cons. split; [|done]. intros _. split.
    + intros ? ?%elem_of_nil. done.
    + intros i j ?? _ ?. done.
  - rewrite IH, !clash_free_cons. setoid_rewrite elem_of_cons.
    setoid_rewrite clashes_union. split.
    + intros (Hat & Hall & Hfree). split; [|split; [|done]].
      * intros t' [->|Hin]; [done|]. intros Hc. apply (Hall t' Hin). by left.
      * intros t' Hin Hc. apply (Hall t' Hin). by right.
    + intros (Hacc & Ht & Hfree). split; [apply Hacc; by left|].
      split; [|done]. intros t' Hin [Hc|Hc].
      * by apply (Hacc t'); [right|].
      * by apply (Ht t').
Qed.


Lemma clean_empty (cs : list tree) : clean ∅ cs ↔ clash_free cs.
Proof.
  rewrite clean_clash_free, clash_free_cons.
  split; [tauto|]. intros H. split; [|done]. intros t' _. apply clashes_empty.
Qed.







(** ** The merge *)

(** The first copy meets nothing: the tree was just cleared. *)
Lemma build_dist_folder_loop c w id js :
  getPluginId c = Returns id → jobs w = Some js →
  build_dist_folder c w =
    match for_of js (merge_job c) (set_dist (local_dist w) (recreated w)) with
    | (Returns _, w') => (Returns id, w')
    | (Throws e, w') => (Throws e, w')
    end.
Proof.
  intros Hid Hjobs. unfold build_dist_folder. run.
  rewrite Hid. simpl.
  destruct (local_dist w) as [src|] eqn:Hlocal; simpl.
  - rewrite cp_rn_clean by apply clashes_empty. simpl.
    unfold canonical. simpl. rewrite Hjobs, (left_id_L ∅ (∪)). done.
  - by rewrite Hjobs.
Qed.

Lemma clean_contributions w js :
  clean (canonical (set_dist (local_dist w) (recreated w))) (omap snd js)
  ↔ clash_free (contributions w js).
Proof.
  unfold contributions, canonical. simpl.
  destruct (local_dist w) as [src|]; simpl.
  - apply clean_clash_free.
  - apply clean_empty.
Qed.

Lemma merge_into_contributions w js :
  merge_into (local_dist w) (omap snd js) = merge_into None (contributions w js).
Proof.
  unfold contributions. destruct (local_dist w) as [src|]; simpl; [|done].
  by rewrite (left_id_L ∅ (∪)).
Qed.

Lemma build_dist_folder_clean c w id js :
  getPluginId c = Returns id → jobs w = Some js →
  clash_free (contributions w js) →
  build_dist_folder c w =
    (Returns id, set_dist (merge_into None (contributions w js)) (recreated w)).
Proof.
  intros Hid Hjobs Hfree. rewrite (build_dist_folder_loop c w id js) by done.
  rewrite loop_clean by (by rewrite clean_contributions). simpl.
  by rewrite merge_into_contributions.
Qed.


(** ** Where the files of the tree come from *)










Lemma runner_after_merge c w id w1 :
  build_dist_folder c w = (Returns id, w1) →
  packagePluginRunner c w =
    match build_zip c id w1 with
    | (Returns (pluginInfo, zipFile), w2) =>
        stage_environment c id pluginInfo zipFile w2
    | (Throws e, w2) => (Throws e, w2)
    end.
Proof.
  intros H. unfold packagePluginRunner. run. rewrite H.
  by destruct (build_zip c id w1) as [[[]|]].
Qed.

(** Without a canonical tree the stage cannot get past [chdir]. *)
Lemma build_zip_no_tree c id w :
  dist w = None →
  ∃ e w', build_zip c id w = (Throws e, w') ∧ dist w' = None ∧
          packages w' = packages w.
Proof.
  intros Hd. unfold build_zip. run. rewrite Hd. simpl.
  destruct (getPluginJson c _ None) as [m|e]; [|by eauto].
  destruct (getPluginBuildInfo c) as [b|e]; [|by eauto].
  by eexists _, _.
Qed.

Lemma build_zip_run c id w t m b a :
  dist w = Some t →
  getPluginJson c (path_resolve (distDir c id) "plugin.json") (t !! "plugin.json")
    = Returns m →
  getPluginBuildInfo c = Returns b →
  zip c (<["plugin.json" := stringify c (stamp b m)]> t) = Returns a →
  build_zip c id w =
    (if size a <? 100
     then Throws ("Invalid zip file: " +:+ zipFile c (stamp b m))
     else Returns (stamp b m, zipFile c (stamp b m)),
     zipped c id (stamp b m) t a w).
Proof.
  intros Hd Hm Hb Ha. unfold build_zip. run. rewrite Hd. simpl.
  rewrite Hm, Hb. simpl. fold (stamp b m).
  rewrite Ha. simpl. rewrite lookup_insert_eq.
  unfold zipped, zipFile. by destruct (size a <? 100).
Qed.

Lemma omap_absent (js : list (string * option tree)) :
  (∀ j, j ∈ js → j.2 = None) → omap snd js = [].
Proof.
  induction js as [|[n o] js IH]; intros H; [done|].
  assert (o = None) as -> by (apply (H (n, o)); rewrite elem_of_cons; auto).
  simpl. apply IH. intros j Hj. apply H. rewrite elem_of_cons. auto.
Qed.

End PackageFacts.

(** * The Package stage: the properties of the specification *)

Module PackageClaims.
Import Package PackageFacts.





(** [C6] The archive size check.  Once the canonical tree is merged, its
    manifest loaded and stamped and the tree zipped, an archive of fewer
    than 100 bytes fails the stage with "Invalid zip file: <zipFile>",
    whatever it holds; an archive of 100 bytes or more passes the check
    and the stage goes on to the package details. *)
Theorem package_zip_size_check c w0 id w t m b a :
  build_dist_folder c w0 = (Returns id, w) →
  dist w = Some t →
  getPluginJson c (path_resolve (distDir c id) "plugin.json") (t !! "plugin.json")
    = Returns m →
  getPluginBuildInfo c = Returns b →
  zip c (<["plugin.json" := stringify c (stamp b m)]> t) = Returns a →
  let m' := stamp b m in
  let w' := zipped c id m' t a w in
  (size a < 100 →
   packagePluginRunner c w0 = (Throws ("Invalid zip file: " +:+ zipFile c m'), w')) ∧
  (100 ≤ size a →
   build_zip c id w = (Returns (m', zipFile c m'), w') ∧
   packagePluginRunner c w0 = stage_environment c id m' (zipFile c m') w').
Proof.
  intros Hmerge Hd Hm Hb Ha m' w'.
  rewrite (runner_after_merge c w0 id w Hmerge).
  rewrite (build_zip_run c id w t m b a Hd Hm Hb Ha).
  split; intros Hsize.
  - by rewrite (proj2 (Z.ltb_lt _ _) Hsize).
  - by rewrite (proj2 (Z.ltb_ge _ _) Hsize).
Qed.

Lemma package_zip_size_check_witness :
  (∃ w', packagePluginRunner (PackageExample.tools 99) PackageExample.two_builds
           = (Throws "Invalid zip file: /home/circleci/plugin/ci/packages/my-panel-1.0.0.zip",
              w')) ∧
  (∃ w', packagePluginRunner (PackageExample.tools 100) PackageExample.two_builds
           = (Returns tt, w')).
Proof.
  split.
  - pose (c := PackageExample.tools 99).
    pose (w := (build_dist_folder c PackageExample.two_builds).2).
    destruct (package_zip_size_check c PackageExample.two_builds "my-panel" w
                (canonical w) PackageExample.manifest PackageExample.build_info
                {| size := 99;
                   entries := <["plugin.json" :=
                                  stringify c (stamp PackageExample.build_info
                                                 PackageExample.manifest)]>
                                (canonical w) |})
      as [H _]; try (vm_compute; reflexivity).
    eexists. apply H. reflexivity.
  - pose (c := PackageExample.tools 100).
    pose (w := (build_dist_folder c PackageExample.two_builds).2).
    destruct (package_zip_size_check c PackageExample.two_builds "my-panel" w
                (canonical w) PackageExample.manifest PackageExample.build_info
                {| size := 100;
                   entries := <["plugin.json" :=
                                  stringify c (stamp PackageExample.build_info
                                                 PackageExample.manifest)]>
                                (canonical w) |})
      as [_ H]; try (vm_compute; reflexivity).
    destruct H as [_ H]; [discriminate|].
    eexists. etransitivity; [exact H|]. vm_compute. reflexivity.
Defined.

(** [C8], as the code has it.  When neither the working directory nor
    any job folder holds a [dist] folder, the merge copies nothing and
    returns, and the canonical tree has no file (its folder is not even
    created); but the stage does not succeed: it fails when it loads the
    manifest from that tree, or at the latest when it changes into the
    missing folder to zip it, and no archive is produced. *)
Theorem package_nothing_to_package c w id js :
  getPluginId c = Returns id →
  jobs w = Some js →
  local_dist w = None →
  (∀ j, j ∈ js → j.2 = None) →
  (∃ w1, build_dist_folder c w = (Returns id, w1) ∧
         dist w1 = None ∧ canonical w1 = ∅) ∧
  (∃ e w', packagePluginRunner c w = (Throws e, w') ∧
           dist w' = None ∧ packages w' = ∅).
Proof.
  intros Hid Hjobs Hlocal Hnone.
  assert (Hcs : contributions w js = []).
  { unfold contributions. by rewrite Hlocal, omap_absent. }
  assert (Hmerge : build_dist_folder c w = (Returns id, recreated w)).
  { rewrite (build_dist_folder_clean c w id js Hid Hjobs).
    - rewrite Hcs. done.
    - rewrite Hcs. intros i j t1 t2 _ H. done. }
  split.
  - exists (recreated w). done.
  - rewrite (runner_after_merge c w id _ Hmerge).
    destruct (build_zip_no_tree c id (recreated w) eq_refl)
      as (e & w' & -> & Hd & Hp).
    by exists e, w'.
Qed.

Lemma package_nothing_to_package_witness :
  ∃ e w', packagePluginRunner (PackageExample.tools 2048) PackageExample.nothing_built
            = (Throws e, w') ∧ dist w' = None ∧ packages w' = ∅.
Proof.
  apply (package_nothing_to_package (PackageExample.tools 2048)
           PackageExample.nothing_built "my-panel"
           [("build_frontend", None); ("package", None)]); try reflexivity.
  intros j Hj. rewrite !elem_of_cons, elem_of_nil in Hj.
  destruct Hj as [->|[->|[]]]; reflexivity.
Defined.

(** The Package stage does not succeed on a project where nothing was
    built. *)
Lemma package_empty_counterexample :
  PackageExample.nothing_built.(local_dist) = None ∧
  (∀ j, j ∈ default [] PackageExample.nothing_built.(jobs) → j.2 = None) ∧
  ¬ ∃ w', packagePluginRunner (PackageExample.tools 2048) PackageExample.nothing_built
            = (Returns tt, w').
Proof.
  split; [reflexivity|]. split.
  - intros j Hj. simpl in Hj. rewrite !elem_of_cons, elem_of_nil in Hj.
    destruct Hj as [->|[->|[]]]; reflexivity.
  - intros [w' H]. vm_compute in H. discriminate H.
Qed.

End PackageClaims.

(** * The Build stage: the properties of the specification *)

Module BuildClaims.
Import Build.

Ltac run :=
  cbv beta iota zeta delta
    [mbind M_bind mret M_ret call emit modify gets throw try_catch
     recreate_workDir start_make await_pluginBuildRunner renameSync
     move_folder for_of];
  simpl.

(** [C3], as the code has it for the frontend build.  The folders are
    moved only once [pluginBuildRunner] has returned: the renames follow
    its completion in the trace, and when the stage returns neither
    [dist] nor [coverage] is left in the working directory while the job
    folder holds what the delegate left of them.  When the delegate
    fails, its error is the stage's, nothing is moved, and the working
    directory stays as the delegate left it. *)
Theorem build_frontend_moves_after_delegate c w :
  rimraf c (getJobFolder c) = Returns tt →
  mkdirSync c (getJobFolder c) = Returns tt →
  let built := (pluginBuildRunner c (project w)).2 in
  let delegate := [Started "pluginBuildRunner"; Completed "pluginBuildRunner"] in
  match (pluginBuildRunner c (project w)).1 with
  | Returns _ =>
      ∃ w' d,
        buildPluginRunner c false w = (Returns tt, w') ∧
        project w' !! "dist" = None ∧ project w' !! "coverage" = None ∧
        workDir w' = Some d ∧
        d !! "dist" = built !! "dist" ∧ d !! "coverage" = built !! "coverage" ∧
        trace w' = trace w ++ delegate ++ moves c built ++
                   [WriteJobStats (getJobFolder c)]
  | Throws e =>
      ∃ w',
        buildPluginRunner c false w = (Throws e, w') ∧
        project w' = built ∧ workDir w' = Some ∅ ∧
        trace w' = trace w ++ delegate
  end.
Proof.
  intros Hrm Hmk built delegate. unfold buildPluginRunner. run.
  rewrite Hrm, Hmk. simpl. fold built.
  destruct (pluginBuildRunner c (project w)).1 as [[]|e]; simpl.
  - unfold moves. simpl.
    destruct (built !! "dist") as [t1|] eqn:Hd; simpl;
      rewrite ?lookup_delete_ne by done;
      destruct (built !! "coverage") as [t2|] eqn:Hc; simpl.
    all: eexists _, _; split; [reflexivity|]; simpl.
    all: refine (conj _ (conj _ (conj eq_refl _))).
    all: repeat first
           [ rewrite lookup_delete_eq | rewrite lookup_delete_ne by done
           | rewrite lookup_insert_eq | rewrite lookup_insert_ne by done
           | rewrite lookup_empty ].
    all: rewrite <- ?app_assoc; done.
  - eexists. split; [reflexivity|]. simpl. by rewrite <- app_assoc.
Qed.

Lemma build_frontend_moves_after_delegate_witness :
  ∃ w' d,
    buildPluginRunner (BuildExample.tools true) false BuildExample.checkout
      = (Returns tt, w') ∧
    project w' = ∅ ∧ workDir w' = Some d ∧
    d !! "dist" = Some BuildExample.bundle ∧
    d !! "coverage" = Some BuildExample.lcov.
Proof.
  destruct (build_frontend_moves_after_delegate (BuildExample.tools true)
              BuildExample.checkout eq_refl eq_refl)
    as (w' & d & Hrun & _ & _ & Hd & Hdist & Hcov & _).
  exists w', d. split; [exact Hrun|]. split.
  - vm_compute in Hrun. by injection Hrun as <-.
  - split; [exact Hd|]. split; [exact Hdist | exact Hcov].
Defined.

(** The move does not always wait for a finished delegate that
    succeeded.  A frontend build that fails after it wrote [dist] ends
    the stage with [dist] still in the working directory.  A backend
    build is not waited for at all: the stage returns while [make] runs,
    nothing was there to move yet, and what [make] then writes stays in
    the working directory. *)
Lemma build_move_counterexample :
  (∃ w', buildPluginRunner (BuildExample.tools false) false BuildExample.checkout
           = (Throws "Build failed", w') ∧
         project w' !! "dist" = Some BuildExample.bundle ∧
         workDir w' = Some ∅) ∧
  (∃ w', buildPluginRunner (BuildExample.tools true) true BuildExample.checkout
           = (Returns tt, w') ∧
         filter (λ e, is_renamed e = true) (trace w') = [] ∧
         trace (settle w') =
           [Started "make backend-plugin-ci";
            WriteJobStats "/home/circleci/plugin/ci/jobs/build_plugin";
            Completed "make backend-plugin-ci"] ∧
         project (settle w') !! "dist" = Some BuildExample.binary ∧
         workDir (settle w') = Some ∅).
Proof.
  assert (Hpair : ∀ (r : outcome unit * world) o, r.1 = o → r = (o, r.2))
    by (by intros [o' w'] o; simpl; intros ->).
  split.
  - exists (buildPluginRunner (BuildExample.tools false) false
              BuildExample.checkout).2.
    split; [apply Hpair|split]; vm_compute; reflexivity.
  - exists (buildPluginRunner (BuildExample.tools true) true
              BuildExample.checkout).2.
    split; [apply Hpair|split; [|split; [|split]]]; vm_compute; reflexivity.
Qed.

End BuildClaims.

(** * The Test stage: the properties of the specification *)

Module TestClaims.
Import Test.

Ltac run :=
  cbv beta iota zeta delta
    [mbind M_bind mret M_ret call emit modify gets throw try_catch
     recreate_outputFolder recreate_tempDir collect];
  simpl.

Lemma keeps_bind {A B} (m : M world A) (k : A → M world B) :
  keeps m → (∀ a, keeps (k a)) → keeps (m ≫= k).
Proof.
  intros Hm Hk w. unfold mbind, M_bind. specialize (Hm w).
  destruct (m w) as [[a|e] w1]; simpl in *; [|done].
  destruct (Hk a w1) as [-> ->]. done.
Qed.

Lemma keeps_call {A} (o : outcome A) : keeps (call o).
Proof. by intros w. Qed.

Lemma keeps_ret {A} (a : A) : keeps (mret a : M world A).
Proof. by intros w. Qed.

Lemma keeps_throw {A} (e : string) : keeps (throw e : M world A).
Proof. by intros w. Qed.

Lemma keeps_gets {A} (f : world → A) : keeps (gets f).
Proof. by intros w. Qed.

Lemma keeps_modify (f : world → world) :
  (∀ w, workDir (f w) = workDir w ∧ trace (f w) = trace w) → keeps (modify f).
Proof. intros H w. apply H. Qed.

Lemma check_version_keeps st m : keeps (check_version st m).
Proof.
  unfold check_version.
  repeat case_match; auto using keeps_ret, keeps_throw.
Qed.

(** The [try] block touches neither the job folder nor the trace. *)
Lemma guarded_keeps c st : keeps (guarded c st).
Proof.
  unfold guarded, ensure_tempDir, copy_common_tests.
  repeat first
    [ apply keeps_bind; [|intros ?]
    | apply keeps_call | apply keeps_ret | apply keeps_gets
    | apply check_version_keeps
    | apply keeps_modify; by intros []
    | case_match ].
  intros w. unfold run_tests.
  by destruct (runEndToEndTests c _ _) as [[o r] files].
Qed.

Lemma try_run c st w :
  try_catch (guarded c st) store_error (prepared c w)
    = (Returns tt, after_try c st w).
Proof.
  unfold try_catch, store_error, after_try, results_after_try, caught, tested,
    modify.
  destruct (guarded c st (prepared c w)) as [[[]|e] w1]; simpl; [|done].
  by destruct w1.
Qed.

(** The runner, once the settings are loaded and the folders set up. *)
Lemma runner_set_up c full w st :
  set_up c st →
  testPluginRunner c full w =
    match rimraf_tempDir_after c with
    | Throws e => (Throws e, after_try c st w)
    | Returns _ =>
        match cp_outputFolder c with
        | Throws e => (Throws e, set_tempDir None (after_try c st w))
        | Returns _ =>
            match findImagesInFolder c (copied c st w) with
            | Throws e =>
                (Throws e, set_workDir (copied c st w)
                             (set_tempDir None (after_try c st w)))
            | Returns images => (Returns tt, finished c st w images)
            end
        end
    end.
Proof.
  intros (Hs & H1 & H2 & H3 & H4). unfold testPluginRunner.
  cbv beta iota zeta delta
    [mbind M_bind mret M_ret call emit modify gets throw
     recreate_outputFolder recreate_tempDir collect].
  rewrite Hs, H1, H2, H3, H4. cbv beta iota.
  change (set_tempDir (Some ∅) (set_tempDir None (set_output (Some ∅)
            (set_output None (set_results _ w))))) with (prepared c w).
  rewrite try_run. simpl.
  destruct (guarded_keeps c st (prepared c w)) as [Hwork Htrace].
  fold (tested c st w) in Hwork, Htrace. simpl in Hwork, Htrace.
  rewrite Hwork, Htrace. fold (copied c st w).
  destruct (rimraf_tempDir_after c) as [[]|]; simpl; [|done].
  destruct (cp_outputFolder c) as [[]|]; simpl; [|done].
  destruct (findImagesInFolder c (copied c st w)) as [images|]; simpl; [|done].
  unfold finished. simpl. by rewrite <- app_assoc.
Qed.

(** A failure to set up the output or the scratch folder is fatal. *)
Lemma runner_set_up_fails c full w st e :
  getEndToEndSettings c = Returns st →
  rimraf_outputFolder c = Throws e ∨
  rimraf_outputFolder c = Returns tt ∧
    (mkdir_outputFolder c = Throws e ∨
     mkdir_outputFolder c = Returns tt ∧
       (rimraf_tempDir c = Throws e ∨
        rimraf_tempDir c = Returns tt ∧ mkdir_tempDir c = Throws e)) →
  ∃ w', testPluginRunner c full w = (Throws e, w').
Proof.
  intros Hs H. unfold testPluginRunner. run. rewrite Hs.
  destruct H as [->|[-> [->|[-> [->|[-> ->]]]]]]; simpl; eauto.
Qed.

Lemma caught_stored c st w e :
  (guarded c st (prepared c w)).1 = Throws e →
  TestResultsInfo.error (results_after_try c st w) = Some e.
Proof. intros H. unfold results_after_try, caught. by rewrite H. Qed.

(** The three sources of errors inside the [try] block. *)
Lemma guarded_query_fails c st w0 e :
  require_axios c = Returns tt →
  get_frontend_settings c = Throws e →
  (guarded c st w0).1 = Throws e.
Proof. intros H1 H2. unfold guarded. run. by rewrite H1, H2. Qed.

Lemma guarded_wrong_version c st w0 g m loaded current :
  require_axios c = Returns tt →
  get_frontend_settings c = Returns g →
  get_plugin_settings c (PluginMeta.id (plugin st)) = Returns m →
  PluginMetaInfo.build (PluginMeta.info m) = Some loaded →
  PluginMetaInfo.build (PluginMeta.info (plugin st)) = Some current →
  PluginBuildInfo.hash loaded ≠ PluginBuildInfo.hash current →
  (guarded c st w0).1 = Throws "Wrong plugin version".
Proof.
  intros H1 H2 H3 H4 H5 H6. unfold guarded, check_version. run.
  rewrite H1, H2, H3, H4, H5. simpl. by rewrite decide_False.
Qed.

Lemma guarded_tests_fail c st w0 g m e :
  require_axios c = Returns tt →
  get_frontend_settings c = Returns g →
  get_plugin_settings c (PluginMeta.id (plugin st)) = Returns m →
  PluginMetaInfo.build (PluginMeta.info m) = None →
  tempDir w0 = Some ∅ →
  cp_common_tests c = Returns tt →
  (runEndToEndTests c (TestResultsInfo.set_grafana (Some g) (results w0))
     (default ∅ (output w0))).1.1 = Throws e →
  (guarded c st w0).1 = Throws e.
Proof.
  intros H1 H2 H3 H4 H5 H6 H7.
  unfold guarded, check_version, ensure_tempDir, copy_common_tests, run_tests.
  run. rewrite H1, H2, H3, H4. simpl. rewrite H5, H6. simpl.
  by destruct (runEndToEndTests c _ _) as [[o r] files].
Qed.

(** A failure to load the end-to-end settings is fatal. *)
Lemma runner_settings_fail c full w e :
  getEndToEndSettings c = Throws e →
  testPluginRunner c full w =
    (Throws e, set_results (TestResultsInfo.mk (job c) None None 0 0 []) w).
Proof. intros Hs. unfold testPluginRunner. run. by rewrite Hs. Qed.

(** [C4], as the code has it.  A failure to load the end-to-end
    settings is fatal, and so is a failure to set up the output or the
    scratch folder.  Once they are set up, whatever the guarded block
    throws (a failed query of the instance, a build hash that differs
    from the packaged one, a failing test runner) ends up in
    [results.error] and is not propagated; and provided the clean-up,
    the copy to the job folder and the search for screenshots return,
    the stage returns, having copied the runner's output to the job
    folder, listed the screenshots and written [results.json].  Each of
    those three steps after the guarded block is fatal when it fails:
    the stage throws its error, with nothing written, whatever the
    guarded block did.  These are the only failures of the stage. *)
Theorem test_failures_are_results c full w :
  (∀ e, getEndToEndSettings c = Throws e →
        ∃ w', testPluginRunner c full w = (Throws e, w') ∧ trace w' = trace w) ∧
  (∀ st, getEndToEndSettings c = Returns st →
    (∀ e,
        rimraf_outputFolder c = Throws e ∨
        rimraf_outputFolder c = Returns tt ∧
          (mkdir_outputFolder c = Throws e ∨
           mkdir_outputFolder c = Returns tt ∧
             (rimraf_tempDir c = Throws e ∨
              rimraf_tempDir c = Returns tt ∧ mkdir_tempDir c = Throws e)) →
        ∃ w', testPluginRunner c full w = (Throws e, w')) ∧
    (set_up c st →
     let r := results_after_try c st w in
     (∀ e, (guarded c st (prepared c w)).1 = Throws e →
           TestResultsInfo.error r = Some e) ∧
     (∀ e, require_axios c = Returns tt → get_frontend_settings c = Throws e →
           TestResultsInfo.error r = Some e) ∧
     (∀ g m loaded current,
         require_axios c = Returns tt →
         get_frontend_settings c = Returns g →
         get_plugin_settings c (PluginMeta.id (plugin st)) = Returns m →
         PluginMetaInfo.build (PluginMeta.info m) = Some loaded →
         PluginMetaInfo.build (PluginMeta.info (plugin st)) = Some current →
         PluginBuildInfo.hash loaded ≠ PluginBuildInfo.hash current →
         TestResultsInfo.error r = Some "Wrong plugin version") ∧
     (∀ g m e,
         require_axios c = Returns tt →
         get_frontend_settings c = Returns g →
         get_plugin_settings c (PluginMeta.id (plugin st)) = Returns m →
         PluginMetaInfo.build (PluginMeta.info m) = None →
         cp_common_tests c = Returns tt →
         (runEndToEndTests c
            (TestResultsInfo.mk (job c) (Some g) None 0 0 []) ∅).1.1 = Throws e →
         TestResultsInfo.error r = Some e) ∧
     (rimraf_tempDir_after c = Returns tt →
      cp_outputFolder c = Returns tt →
      ∀ images, findImagesInFolder c (copied c st w) = Returns images →
        testPluginRunner c full w = (Returns tt, finished c st w images)) ∧
     (∀ e, rimraf_tempDir_after c = Throws e →
           testPluginRunner c full w = (Throws e, after_try c st w)) ∧
     (∀ e, rimraf_tempDir_after c = Returns tt →
           cp_outputFolder c = Throws e →
           testPluginRunner c full w =
             (Throws e, set_tempDir None (after_try c st w))) ∧
     (∀ e, rimraf_tempDir_after c = Returns tt →
           cp_outputFolder c = Returns tt →
           findImagesInFolder c (copied c st w) = Throws e →
           testPluginRunner c full w =
             (Throws e, set_workDir (copied c st w)
                          (set_tempDir None (after_try c st w)))) ∧
     trace (after_try c st w) = trace w ∧
     (∀ e w', testPluginRunner c full w = (Throws e, w') →
        rimraf_tempDir_after c = Throws e ∨ cp_outputFolder c = Throws e ∨
        findImagesInFolder c (copied c st w) = Throws e))).
Proof.
  split.
  { intros e He. rewrite (runner_settings_fail c full w e He). by eexists. }
  intros st Hs. split.
  { intros e H. by eapply runner_set_up_fails. }
  intros Hup r.
  split; [intros e; apply caught_stored|].
  split.
  { intros e H1 H2. by apply caught_stored, guarded_query_fails. }
  split.
  { intros g m loaded current H1 H2 H3 H4 H5 H6.
    by eapply caught_stored, guarded_wrong_version. }
  split.
  { intros g m e H1 H2 H3 H4 H5 H6.
    by eapply caught_stored, guarded_tests_fail. }
  rewrite (runner_set_up c full w st Hup).
  split; [by intros -> -> images ->|].
  split; [by intros e ->|].
  split; [by intros e -> ->|].
  split; [by intros e -> -> ->|].
  split.
  { destruct (guarded_keeps c st (prepared c w)) as [_ Htrace].
    unfold after_try. simpl. fold (tested c st w) in Htrace. exact Htrace. }
  intros e w'.
  destruct (rimraf_tempDir_after c) as [[]|]; [|intros [= -> _]; auto].
  destruct (cp_outputFolder c) as [[]|]; [|intros [= -> _]; auto].
  destruct (findImagesInFolder c (copied c st w)); [done|intros [= -> _]; auto].
Qed.

Lemma test_failures_are_results_witness :
  (∃ w',
     testPluginRunner (TestExample.lab "abc123" (Returns tt)) false TestExample.start
       = (Returns tt, w') ∧
     TestResultsInfo.error (results w') = Some "Wrong plugin version" ∧
     TestResultsInfo.passed (results w') = 0 ∧
     trace w' =
       [WriteFile "/home/circleci/plugin/ci/jobs/test_plugin/results.json" (results w');
        WriteJobStats "/home/circleci/plugin/ci/jobs/test_plugin"]) ∧
  (∃ w',
     testPluginRunner (TestExample.lab "abc123" (Throws "cp failed")) false
       TestExample.start = (Throws "cp failed", w') ∧
     TestResultsInfo.error (results w') = Some "Wrong plugin version" ∧
     trace w' = []).
Proof.
  pose (st := {| plugin := TestExample.manifest "def456";
                 outputFolder := "/home/circleci/plugin/e2e-results" |}).
  split.
  - pose (c := TestExample.lab "abc123" (Returns tt)).
    destruct (test_failures_are_results c false TestExample.start) as [_ H].
    destruct (H st eq_refl) as [_ H'].
    destruct H' as (_ & _ & Hversion & _ & Hrun & _); [by repeat split|].
    eexists. split; [by apply Hrun|].
    split.
    + eapply (Hversion "{ version: 6.5.0 }" (TestExample.manifest "abc123"));
        try reflexivity. discriminate.
    + split; reflexivity.
  - pose (c := TestExample.lab "abc123" (Throws "cp failed")).
    destruct (test_failures_are_results c false TestExample.start) as [_ H].
    destruct (H st eq_refl) as [_ H'].
    destruct H' as (_ & _ & _ & _ & _ & _ & Hcp & _); [by repeat split|].
    eexists. split; [by apply Hcp|]. split; reflexivity.
Defined.

(** Failures that have nothing to do with setting up the folders are
    fatal too: here everything is set up and every test passes, but the
    copy of the runner's output to the job folder fails, and so does the
    stage. *)
Lemma test_fatal_counterexample :
  set_up (TestExample.lab "def456" (Throws "cp failed"))
    {| plugin := TestExample.manifest "def456";
       outputFolder := "/home/circleci/plugin/e2e-results" |} ∧
  ∃ w', testPluginRunner (TestExample.lab "def456" (Throws "cp failed")) false
          TestExample.start = (Throws "cp failed", w') ∧
        TestResultsInfo.error (results w') = None ∧
        trace w' = [].
Proof.
  split; [by repeat split|].
  eexists. split; [vm_compute; reflexivity|]. by split.
Qed.

End TestClaims.
